(** * The HelmChart reconciler of the source-controller

    A shallow embedding of [controllers/helmchart_controller.go]: the
    reconciliation pass ([Reconcile], [reconcile] and its stages), the
    garbage collector, and the change-propagation handlers, followed by
    the properties the specification states about them.

    The pass mutates the object it was handed, the artifact storage and
    the event stream, and it can panic; it is embedded in a state monad
    over these, with an explicit panic outcome. Everything the pass asks
    of its collaborators within one run (the builder, the failures of
    storage and API calls) is fixed by an environment record [Env]. *)

From stdpp Require Import gmap strings list.
From Stdlib Require Import Ascii.

Local Open Scope Z_scope.
Local Open Scope string_scope.

(** ** Errors *)

(** Go's [error] values: a plain message, a wrapped error
    ([fmt.Errorf("...: %w", err)]) and an aggregate
    ([kerrors.NewAggregate]). A nil error is [None]. *)
#[local] Set Warnings "-register-all".
Inductive error : Type :=
| errorString (msg : string)
| wrapError (msg : string) (inner : error)
| NotFound (name : string)
| Aggregate (errs : list error).
#[local] Set Warnings "register-all".

Fixpoint Error (e : error) : string :=
  match e with
  | errorString m => m
  | wrapError m inner => m +:+ ": " +:+ Error inner
  | NotFound name => name +:+ " not found"
  | Aggregate errs =>
      match errs with
      | [x] => Error x
      | _ =>
          "[" +:+
          (fix join (l : list error) : string :=
             match l with
             | [] => ""
             | [x] => Error x
             | x :: r => Error x +:+ ", " +:+ join r
             end) errs +:+ "]"
      end
  end.

Definition isErr (err : option error) : bool :=
  match err with
  | Some _ => true
  | None => false
  end.

(** [client.IgnoreNotFound]. *)
Definition IgnoreNotFound (err : option error) : option error :=
  match err with
  | Some (NotFound _) => None
  | _ => err
  end.

(** [kerrors.NewAggregate]: nil entries are dropped, and an empty list
    aggregates to nil. *)
Definition NewAggregate (errs : list (option error)) : option error :=
  match omap id errs with
  | [] => None
  | l => Some (Aggregate l)
  end.

(** ** API types ([sourcev1], [metav1], [ctrl]) *)

Inductive ConditionStatus : Type :=
| ConditionTrue
| ConditionFalse
| ConditionUnknown.

Global Instance ConditionStatus_eq_dec : EqDecision ConditionStatus.
Proof. solve_decision. Defined.

(** A condition; its type is the key under which the object holds it. *)
Record Condition : Type := mkCondition {
  Status : ConditionStatus;
  Reason : string;
  Message : string
}.

(** A storage path, kept split at its last separator: the directory
    [<kind>/<namespace>/<name>] and the file name. *)
Record ArtifactPath : Type := mkPath {
  pathDir : string;
  pathBase : string
}.

Global Instance ArtifactPath_eq_dec : EqDecision ArtifactPath.
Proof. solve_decision. Defined.

(** A URL, as far as the controller looks into it: host and path. The
    empty string is [emptyURL]. *)
Record URL : Type := mkURL {
  urlHost : string;
  urlPath : string
}.

Global Instance URL_eq_dec : EqDecision URL.
Proof. solve_decision. Defined.

Definition emptyURL : URL := mkURL "" "".

Record Artifact : Type := mkArtifact {
  Path : ArtifactPath;
  ArtifactURL : URL;
  Revision : string;
  Checksum : string
}.

(** The zero value of [sourcev1.Artifact]. *)
Definition zeroArtifact : Artifact :=
  mkArtifact (mkPath "" "") emptyURL "" "".

(** [Artifact.HasRevision]: false on a nil artifact. *)
Definition HasRevision (a : option Artifact) (revision : string) : bool :=
  match a with
  | None => false
  | Some a => bool_decide (Revision a = revision)
  end.

Record LocalHelmChartSourceReference : Type := mkSourceRef {
  RefKind : string;
  RefName : string
}.

Record HelmChartSpec : Type := mkSpec {
  SourceRef : LocalHelmChartSourceReference;
  Interval : Z;
  ValuesFiles : list string;
  Suspend : bool
}.

Record HelmChartStatus : Type := mkStatus {
  ObservedGeneration : Z;
  Conditions : gmap string Condition;
  StatusURL : URL;
  StatusArtifact : option Artifact;
  LastHandledReconcileAt : string
}.

Record HelmChart : Type := mkHelmChart {
  Kind : string;
  Namespace : string;
  Name : string;
  Generation : Z;
  DeletionTimestamp : option Z;
  Finalizers : list string;
  Annotations : gmap string string;
  Spec : HelmChartSpec;
  ObjStatus : HelmChartStatus
}.

(** [metav1.Time.IsZero]: a nil pointer or the zero time. *)
Definition IsZeroTime (t : option Z) : bool :=
  match t with
  | None => true
  | Some t => bool_decide (t = 0)
  end.

Definition GetArtifact (o : HelmChart) : option Artifact :=
  StatusArtifact (ObjStatus o).

Definition GetRequeueAfter (o : HelmChart) : Z := Interval (Spec o).

Definition GetValuesFiles (o : HelmChart) : list string :=
  ValuesFiles (Spec o).

Definition GetConditions (o : HelmChart) : gmap string Condition :=
  Conditions (ObjStatus o).

(** Field updates. *)
Definition withStatus (f : HelmChartStatus -> HelmChartStatus)
    (o : HelmChart) : HelmChart :=
  mkHelmChart (Kind o) (Namespace o) (Name o) (Generation o)
    (DeletionTimestamp o) (Finalizers o) (Annotations o) (Spec o)
    (f (ObjStatus o)).

Definition withFinalizers (f : list string -> list string)
    (o : HelmChart) : HelmChart :=
  mkHelmChart (Kind o) (Namespace o) (Name o) (Generation o)
    (DeletionTimestamp o) (f (Finalizers o)) (Annotations o) (Spec o)
    (ObjStatus o).

Definition setConditions (c : gmap string Condition)
    (s : HelmChartStatus) : HelmChartStatus :=
  mkStatus (ObservedGeneration s) c (StatusURL s) (StatusArtifact s)
    (LastHandledReconcileAt s).

Definition setStatusArtifact (a : option Artifact)
    (s : HelmChartStatus) : HelmChartStatus :=
  mkStatus (ObservedGeneration s) (Conditions s) (StatusURL s) a
    (LastHandledReconcileAt s).

Definition setStatusURL (u : URL) (s : HelmChartStatus) : HelmChartStatus :=
  mkStatus (ObservedGeneration s) (Conditions s) u (StatusArtifact s)
    (LastHandledReconcileAt s).

Definition setObservedGeneration (g : Z)
    (s : HelmChartStatus) : HelmChartStatus :=
  mkStatus g (Conditions s) (StatusURL s) (StatusArtifact s)
    (LastHandledReconcileAt s).

Definition SetLastHandledReconcileRequest (v : string)
    (s : HelmChartStatus) : HelmChartStatus :=
  mkStatus (ObservedGeneration s) (Conditions s) (StatusURL s)
    (StatusArtifact s) v.

(** [ctrl.Result]; [RequeueAfter] is a duration. *)
Record Result : Type := mkResult {
  Requeue : bool;
  RequeueAfter : Z
}.

Definition zeroResult : Result := mkResult false 0.

Definition IsZero (r : Result) : bool :=
  negb (Requeue r) && bool_decide (RequeueAfter r = 0).

(** Names of the conditions and reasons the controller uses. *)
Definition ReadyCondition := "Ready".
Definition ReconcilingCondition := "Reconciling".
Definition StalledCondition := "Stalled".
Definition BuildFailedCondition := "BuildFailed".
Definition FetchFailedCondition := "FetchFailed".
Definition ArtifactOutdatedCondition := "ArtifactOutdated".
Definition ArtifactUnavailableCondition := "ArtifactUnavailable".

Definition SucceededReason := "Succeeded".
Definition StorageOperationFailedReason := "StorageOperationFailed".

Definition SourceFinalizer := "finalizers.fluxcd.io".
Definition ReconcileRequestAnnotation := "reconcile.fluxcd.io/requestedAt".

Definition HelmRepositoryKind := "HelmRepository".
Definition GitRepositoryKind := "GitRepository".
Definition BucketKind := "Bucket".

(** ** The [conditions] package *)

(** Modelled from the spec: the package is part of the runtime library
    and not of the source. The specification has the conditions of an
    object as a set in which no two entries share a name, changed by
    update and delete only; here it is a map from the type of a
    condition to its status, reason and message. *)
Module conditions.

(** Modelled from the spec: [conditions.Get], the condition of a type if
    the object has one. *)
Definition Get (o : HelmChart) (t : string) : option Condition :=
  GetConditions o !! t.

(** Modelled from the spec: [conditions.IsTrue]; a condition that is not
    there is not true. *)
Definition IsTrue (o : HelmChart) (t : string) : bool :=
  match Get o t with
  | Some c => bool_decide (Status c = ConditionTrue)
  | None => false
  end.

(** Modelled from the spec: [conditions.Set], which updates the entry of
    the type or adds one. *)
Definition Set_ (t : string) (c : Condition) (o : HelmChart) : HelmChart :=
  withStatus (fun s => setConditions (<[t := c]> (Conditions s)) s) o.

(** Modelled from the spec: [conditions.Delete]. *)
Definition Delete (t : string) (o : HelmChart) : HelmChart :=
  withStatus (fun s => setConditions (delete t (Conditions s)) s) o.

(** Modelled from the spec: [conditions.MarkTrue] and
    [conditions.MarkFalse] set the condition with the status, reason and
    message given. *)
Definition MarkTrue (t reason message : string) (o : HelmChart) : HelmChart :=
  Set_ t (mkCondition ConditionTrue reason message) o.

Definition MarkFalse (t reason message : string) (o : HelmChart) : HelmChart :=
  Set_ t (mkCondition ConditionFalse reason message) o.

(** Modelled from the spec: [conditions.MarkReconciling] and
    [conditions.MarkStalled]. An object is either at work or stalled:
    marking it as reconciling clears [Stalled], and marking it as stalled
    clears [Reconciling]. *)
Definition MarkReconciling (reason message : string)
    (o : HelmChart) : HelmChart :=
  MarkTrue ReconcilingCondition reason message (Delete StalledCondition o).

Definition MarkStalled (reason message : string)
    (o : HelmChart) : HelmChart :=
  MarkTrue StalledCondition reason message (Delete ReconcilingCondition o).

(** The first condition of [types], in that order, that is set to true
    on the object. *)
Fixpoint firstTrue (o : HelmChart) (types : list string) : option Condition :=
  match types with
  | [] => None
  | t :: rest =>
      match Get o t with
      | Some c =>
          if bool_decide (Status c = ConditionTrue) then Some c
          else firstTrue o rest
      | None => firstTrue o rest
      end
  end.

(** Modelled from the spec: [conditions.SetSummary] belongs to the
    runtime library and is not part of the source. The specification
    gives its rule: if a tracked negative condition is true, the
    target is false with the reason and message of the first true one
    in the given order; otherwise the target is true. The rule does not
    say which reason and message a true summary carries: a target that
    is already true is kept, and one that is set afresh carries
    [SucceededReason] and no message. [withConditions] is the list in
    scope and [negativePolarity] the ones whose truth is bad news. *)
Definition SetSummary (target : string)
    (withConditions negativePolarity : list string)
    (o : HelmChart) : HelmChart :=
  match firstTrue o (filter (fun t => t ∈ negativePolarity) withConditions) with
  | Some c => MarkFalse target (Reason c) (Message c) o
  | None =>
      if IsTrue o target then o
      else MarkTrue target SucceededReason "" o
  end.

End conditions.

(** ** [controllerutil]: finalizers *)

(** Modelled from the spec: [controllerutil] is not part of the source.
    The deletion guard is a marker in the list of finalizers of the
    object, added if it is not there and removed wherever it occurs. *)
Definition ContainsFinalizer (o : HelmChart) (finalizer : string) : bool :=
  bool_decide (finalizer ∈ Finalizers o).

Definition AddFinalizer (finalizer : string) (o : HelmChart) : HelmChart :=
  if ContainsFinalizer o finalizer then o
  else withFinalizers (fun fs => (fs ++ [finalizer])%list) o.

Definition RemoveFinalizer (finalizer : string) (o : HelmChart) : HelmChart :=
  withFinalizers (filter (fun f => f ≠ finalizer)) o.

(** ** The world a pass runs against *)

(** Calls on the artifact storage that touch the file system. *)
Inductive StoreOp : Type :=
| OpMkdirAll (p : ArtifactPath)
| OpLock (p : ArtifactPath)
| OpUnlock (p : ArtifactPath)
| OpCopyFromPath (p : ArtifactPath) (src : string)
| OpSymlink (p : ArtifactPath) (linkName : string)
| OpRemoveAll (dir : string)
| OpRemoveAllButCurrent (p : ArtifactPath).

(** Modelled from the spec: the [Storage] type lives in a file of the
    controllers package that is not part of the source. The store holds
    the artifacts under their paths and the per-artifact locks; [calls]
    records every call that touches the file system, the oldest first,
    whether it succeeded or not. *)
Record Storage : Type := mkStorage {
  Hostname : string;
  files : list ArtifactPath;
  locks : list ArtifactPath;
  calls : list StoreOp
}.

Record Event : Type := mkEvent {
  Severity : string;
  EventReason : string;
  EventMessage : string;
  EventMeta : list (string * string)
}.

Definition EventSeverityInfo := "info".
Definition EventSeverityError := "error".

Record World : Type := mkWorld {
  cluster : list HelmChart;
  storage : Storage;
  events : list Event
}.

(** The state of a pass: the object under reconciliation, which every
    stage mutates through the same pointer, and the world. *)
Record State : Type := mkState {
  obj : HelmChart;
  world : World
}.

Record ChartMetadata : Type := mkChartMetadata {
  MetaName : string;
  MetaVersion : string
}.

(** What the collaborators answer during one pass: the failures of the
    API client and of the storage, and the results of the chart builder.
    A pair [(v, err)] is a Go result with its error. *)
Record Env : Type := mkEnv {
  getErr : option error;
  listErr : option error;
  newHelperErr : option error;
  patchErr : option error;
  mkdirTempErr : option error;
  resolveSource : option (string * error);
  LoadMetadata : ChartMetadata * option error;
  MergeValuesFiles : option error;
  ChartSourceIsDir : bool * option error;
  FetchMissingDependencies : Z * option error;
  Build : string * option error;
  mkdirAllErr : option error;
  lockErr : option error;
  copyFromPath : string * option error;
  symlinkErr : option error;
  removeAllErr : option error;
  removeAllButCurrentErr : option error
}.

(** ** The monad of a pass *)

Inductive outcome (A : Type) : Type :=
| Returned (a : A)
| Panicked (msg : string).
Arguments Returned {A} a.
Arguments Panicked {A} msg.

Definition M (A : Type) : Type := State -> outcome (A * State).

Definition ret {A : Type} (a : A) : M A := fun s => Returned (a, s).

Definition bind {A B : Type} (m : M A) (k : A -> M B) : M B :=
  fun s =>
    match m s with
    | Returned (a, s') => k a s'
    | Panicked msg => Panicked msg
    end.

Definition panic {A : Type} (msg : string) : M A := fun _ => Panicked msg.

Declare Scope pass_scope.
Delimit Scope pass_scope with pass.
Notation "x <- c ;; k" := (bind c (fun x => k))
  (at level 20, c at level 99, k at level 200) : pass_scope.
Notation "' x <- c ;; k" := (bind c (fun x => k))
  (at level 20, x pattern, c at level 99, k at level 200) : pass_scope.
Notation "c ;; k" := (bind c (fun _ => k))
  (at level 100, k at level 200, right associativity) : pass_scope.
Local Open Scope pass_scope.

Definition getObj : M HelmChart := fun s => Returned (obj s, s).

Definition modifyObj (f : HelmChart -> HelmChart) : M unit :=
  fun s => Returned (tt, mkState (f (obj s)) (world s)).

Definition getStorage : M Storage := fun s => Returned (storage (world s), s).

Definition modifyStorage (f : Storage -> Storage) : M unit :=
  fun s =>
    Returned (tt, mkState (obj s)
      (mkWorld (cluster (world s)) (f (storage (world s))) (events (world s)))).

Definition modifyCluster (f : list HelmChart -> list HelmChart) : M unit :=
  fun s =>
    Returned (tt, mkState (obj s)
      (mkWorld (f (cluster (world s))) (storage (world s)) (events (world s)))).

(** Events are fire and forget: they are appended to the stream. *)
Definition EventWithMetaf (meta : list (string * string))
    (severity reason message : string) : M unit :=
  fun s =>
    Returned (tt, mkState (obj s)
      (mkWorld (cluster (world s)) (storage (world s))
         (events (world s) ++ [mkEvent severity reason message meta])%list)).

Definition Eventf (severity reason message : string) : M unit :=
  EventWithMetaf [] severity reason message.

(** ** The artifact storage *)

(** Modelled from the spec: the operations of [Storage] are defined
    next to the type, outside the source. They follow the store contract
    of the specification: existence, public URL, directory, lock, copy,
    alias, removal of everything under a selector and removal of
    everything but the current artifact. Each of them that can fail
    takes its failure from the environment and leaves the files as they
    were when it fails. *)

(** Modelled from the spec: [ArtifactPath] is declared with the API
    types, outside the source. The storage namespace of the artifacts of
    an object is scoped by its identity: kind, namespace and name. *)
Definition ArtifactDir (kind namespace name : string) : string :=
  kind +:+ "/" +:+ namespace +:+ "/" +:+ name.

Definition pathString (p : ArtifactPath) : string :=
  pathDir p +:+ "/" +:+ pathBase p.

(** Modelled from the spec: [Storage.SetArtifactURL] sets the public
    URL of the artifact to the current endpoint of the store. *)
Definition SetArtifactURL (st : Storage) (a : Artifact) : Artifact :=
  mkArtifact (Path a) (mkURL (Hostname st) (pathString (Path a)))
    (Revision a) (Checksum a).

(** Modelled from the spec: [Storage.SetHostname] puts the host of the
    store into a URL. *)
Definition SetHostname (st : Storage) (u : URL) : URL :=
  mkURL (Hostname st) (urlPath u).

(** Modelled from the spec: [Storage.NewArtifactFor] makes the artifact
    of a revision and file name in the namespace of the object. *)
Definition NewArtifactFor (st : Storage) (kind : string) (o : HelmChart)
    (revision fileName : string) : Artifact :=
  SetArtifactURL st
    (mkArtifact (mkPath (ArtifactDir kind (Namespace o) (Name o)) fileName)
       emptyURL revision "").

(** Modelled from the spec: [Storage.ArtifactExist]. *)
Definition ArtifactExist (st : Storage) (a : Artifact) : bool :=
  bool_decide (Path a ∈ files st).

Definition logCall (op : StoreOp) : M unit :=
  modifyStorage (fun st =>
    mkStorage (Hostname st) (files st) (locks st) (calls st ++ [op])%list).

Definition modifyFiles (f : list ArtifactPath -> list ArtifactPath) : M unit :=
  modifyStorage (fun st =>
    mkStorage (Hostname st) (f (files st)) (locks st) (calls st)).

Definition modifyLocks (f : list ArtifactPath -> list ArtifactPath) : M unit :=
  modifyStorage (fun st =>
    mkStorage (Hostname st) (files st) (f (locks st)) (calls st)).

Record ObjectKey : Type := mkKey {
  KeyNamespace : string;
  KeyName : string
}.

Definition ObjectKeyFromObject (o : HelmChart) : ObjectKey :=
  mkKey (Namespace o) (Name o).

(** [reconcile.Request]. *)
Record Request : Type := mkRequest {
  NamespacedName : ObjectKey
}.

(** The end of a pass: its results, the object as the pass left it in
    memory (if it was fetched) and the world. *)
Record Pass : Type := mkPass {
  passResult : Result;
  passErr : option error;
  passObj : option HelmChart;
  passWorld : World
}.

(** The upstream sources, as far as the handlers look at them, and the
    objects a handler can be handed. *)
Record Source : Type := mkSource {
  SourceNamespace : string;
  SourceName : string;
  SourceArtifact : option Artifact
}.

Inductive Object : Type :=
| HelmRepositoryObject (repo : Source)
| GitRepositoryObject (repo : Source)
| BucketObject (bucket : Source)
| HelmChartObject (hc : HelmChart).

Definition typeName (o : Object) : string :=
  match o with
  | HelmRepositoryObject _ => "*v1beta1.HelmRepository"
  | GitRepositoryObject _ => "*v1beta1.GitRepository"
  | BucketObject _ => "*v1beta1.Bucket"
  | HelmChartObject _ => "*v1beta1.HelmChart"
  end.

Section Reconciler.

Context (env : Env).

(** Modelled from the spec: [Storage.MkdirAll]. *)
Definition MkdirAll (a : Artifact) : M (option error) :=
  logCall (OpMkdirAll (Path a)) ;;
  ret (mkdirAllErr env).

(** Modelled from the spec: [Storage.Lock] takes the exclusive lock of
    the path of the artifact. It hands out the unlock function together
    with its error; here the caller runs [Unlock] on the same artifact. *)
Definition Lock (a : Artifact) : M (option error) :=
  logCall (OpLock (Path a)) ;;
  match lockErr env with
  | Some e => ret (Some e)
  | None => modifyLocks (fun l => Path a :: l) ;; ret None
  end.

(** Modelled from the spec: the unlock function that [Storage.Lock]
    returns. *)
Definition Unlock (a : Artifact) : M unit :=
  logCall (OpUnlock (Path a)) ;;
  modifyLocks (filter (fun p => p ≠ Path a)).

(** Modelled from the spec: [Storage.CopyFromPath] writes the file and
    records its checksum on the artifact it was given a pointer to. *)
Definition CopyFromPath (a : Artifact) (path : string)
    : M (Artifact * option error) :=
  logCall (OpCopyFromPath (Path a) path) ;;
  match copyFromPath env with
  | (_, Some e) => ret (a, Some e)
  | (sum, None) =>
      modifyFiles (fun fs =>
        if bool_decide (Path a ∈ fs) then fs else (fs ++ [Path a])%list) ;;
      ret (mkArtifact (Path a) (ArtifactURL a) (Revision a) sum, None)
  end.

(** Modelled from the spec: [Storage.Symlink] refreshes the alias next
    to the artifact and returns its URL, or no URL with the error. *)
Definition Symlink (a : Artifact) (linkName : string)
    : M (URL * option error) :=
  logCall (OpSymlink (Path a) linkName) ;;
  match symlinkErr env with
  | Some e => ret (emptyURL, Some e)
  | None =>
      st <- getStorage ;;
      ret (mkURL (Hostname st) (pathDir (Path a) +:+ "/" +:+ linkName), None)
  end.

(** Modelled from the spec: [Storage.RemoveAll] removes every stored
    artifact the selector matches. The selector is an artifact with the
    file name ["*"], a wildcard over the namespace of its owner. *)
Definition RemoveAll (a : Artifact) : M (option error) :=
  logCall (OpRemoveAll (pathDir (Path a))) ;;
  match removeAllErr env with
  | Some e => ret (Some e)
  | None =>
      modifyFiles (filter (fun p => pathDir p ≠ pathDir (Path a))) ;;
      ret None
  end.

(** Modelled from the spec: [Storage.RemoveAllButCurrent] removes every
    stored artifact of the owner of the given one, except the given
    one. *)
Definition RemoveAllButCurrent (a : Artifact) : M (option error) :=
  logCall (OpRemoveAllButCurrent (Path a)) ;;
  match removeAllButCurrentErr env with
  | Some e => ret (Some e)
  | None =>
      modifyFiles
        (filter (fun p => pathDir p ≠ pathDir (Path a) ∨ p = Path a)) ;;
      ret None
  end.

(** ** The controller *)

(** [garbageCollect] removes all but the current artifact, except when
    the deletion timestamp is set, which removes all artifacts of the
    resource. *)
Definition garbageCollect : M (option error) :=
  o <- getObj ;;
  if negb (IsZeroTime (DeletionTimestamp o)) then
    st <- getStorage ;;
    err <- RemoveAll (NewArtifactFor st (Kind o) o "" "*") ;;
    match err with
    | Some e =>
        Eventf EventSeverityError "GarbageCollectionFailed"
          ("Garbage collection for deleted resource failed: " +:+ Error e) ;;
        ret (Some e)
    | None =>
        modifyObj (withStatus (setStatusArtifact None)) ;;
        Eventf EventSeverityInfo "GarbageCollectionSucceeded"
          "Garbage collected artifacts for deleted resource" ;;
        ret None
    end
  else
    match GetArtifact o with
    | Some a =>
        err <- RemoveAllButCurrent a ;;
        match err with
        | Some e =>
            Eventf EventSeverityError "GarbageCollectionFailed"
              ("Garbage collection of old artifacts failed: " +:+ Error e) ;;
            ret (Some e)
        | None =>
            Eventf EventSeverityInfo "GarbageCollectionSucceeded"
              "Garbage collected old artifacts" ;;
            ret None
        end
    | None => ret None
    end.

(** [reconcileDelete] garbage collects all artifacts of the object and,
    if that succeeds, removes the finalizer. *)
Definition reconcileDelete : M (Result * option error) :=
  err <- garbageCollect ;;
  match err with
  | Some e => ret (zeroResult, Some e)
  | None =>
      modifyObj (RemoveFinalizer SourceFinalizer) ;;
      ret (zeroResult, None)
  end.

(** [reconcileStorage]: the result of the garbage collection is
    dropped ([_ = r.garbageCollect(ctx, obj)]). *)
Definition reconcileStorage : M (Result * option error) :=
  _ <- garbageCollect ;;
  o <- getObj ;;
  st <- getStorage ;;
  match GetArtifact o with
  | Some artifact =>
      if negb (ArtifactExist st artifact) then
        modifyObj (withStatus (fun s =>
          setStatusURL emptyURL (setStatusArtifact None s)))
      else ret tt
  | None => ret tt
  end ;;
  o <- getObj ;;
  match GetArtifact o with
  | None =>
      modifyObj (conditions.MarkTrue ArtifactUnavailableCondition
        "NoArtifact" "No artifact for resource in storage") ;;
      ret (mkResult true 0, None)
  | Some artifact =>
      modifyObj (conditions.Delete ArtifactUnavailableCondition) ;;
      modifyObj (withStatus
        (setStatusArtifact (Some (SetArtifactURL st artifact)))) ;;
      modifyObj (withStatus (fun s =>
        setStatusURL (SetHostname st (StatusURL s)) s)) ;;
      ret (mkResult false (GetRequeueAfter o), None)
  end.

(** Modelled from the spec: [reconcileSource] is called by [reconcile]
    but defined outside the source file. The specification has the
    stage resolve the upstream source's artifact into the workspace
    through the builder; a failure is terminal for the pass, sets the
    fetch-failed condition with a reason and message, and is surfaced
    as an error, while success clears that condition and lets the pass
    proceed. [resolveSource] gives the reason and the error of a
    failure. *)
Definition reconcileSource : M (Result * option error) :=
  match resolveSource env with
  | Some (reason, e) =>
      modifyObj (conditions.MarkTrue FetchFailedCondition reason (Error e)) ;;
      ret (zeroResult, Some e)
  | None =>
      modifyObj (conditions.Delete FetchFailedCondition) ;;
      o <- getObj ;;
      ret (mkResult false (GetRequeueAfter o), None)
  end.

(** [reconcileChart] writes the new artifact and the chart path
    through the pointers [artifact] and [result]; here they are
    returned next to the result, unchanged where the code does not
    assign them. *)
Definition reconcileChart (artifact : Artifact) (result : string)
    : M (Result * option error * Artifact * string) :=
  let '(chartMeta, err) := LoadMetadata env in
  match err with
  | Some e => ret (zeroResult, Some e, artifact, result)
  | None =>
      o <- getObj ;;
      if HasRevision (GetArtifact o) (MetaVersion chartMeta)
         && bool_decide (Generation o = ObservedGeneration (ObjStatus o))
      then ret (mkResult false (GetRequeueAfter o), None, artifact, result)
      else
        match
          (if bool_decide (0 < length (GetValuesFiles o))%nat
           then MergeValuesFiles env else None)
        with
        | Some e => ret (zeroResult, Some e, artifact, result)
        | None =>
            let '(isChartDir, err) := ChartSourceIsDir env in
            match
              (if isErr err || isChartDir then
                 match err with
                 | Some e => Some e
                 | None => snd (FetchMissingDependencies env)
                 end
               else None)
            with
            | Some e => ret (zeroResult, Some e, artifact, result)
            | None =>
                let '(chartPath, err) := Build env in
                match err with
                | Some e => ret (zeroResult, Some e, artifact, result)
                | None =>
                    st <- getStorage ;;
                    ret (mkResult false (GetRequeueAfter o), None,
                         NewArtifactFor st (Kind o) o (MetaVersion chartMeta)
                           (MetaName chartMeta +:+ "-" +:+
                            MetaVersion chartMeta +:+ ".tgz"),
                         chartPath)
                end
            end
        end
  end.

(** The function deferred first in [reconcileArtifact]; it reads the
    variable [artifact] as it is when the stage returns. *)
Definition restoreReady (artifact : Artifact) : M unit :=
  o <- getObj ;;
  match GetArtifact o with
  | Some _ => modifyObj (conditions.Delete ArtifactUnavailableCondition)
  | None => ret tt
  end ;;
  if HasRevision (GetArtifact o) (Revision artifact) then
    modifyObj (conditions.Delete ArtifactOutdatedCondition) ;;
    modifyObj (conditions.MarkTrue ReadyCondition SucceededReason
      ("Stored artifact for revision '" +:+ Revision artifact +:+ "'"))
  else ret tt.

(** The part of [reconcileArtifact] that runs with the lock held. *)
Definition publishLocked (artifact : Artifact) (path : string)
    : M (Result * option error * Artifact) :=
  '(artifact, err) <- CopyFromPath artifact path ;;
  match err with
  | Some e =>
      Eventf EventSeverityError StorageOperationFailedReason
        ("Failed to write Helm repository index to storage: " +:+ Error e) ;;
      ret (zeroResult, Some e, artifact)
  | None =>
      EventWithMetaf
        [("revision", Revision artifact); ("checksum", Checksum artifact)]
        EventSeverityInfo "NewArtifact"
        ("Stored artifact for revision '" +:+ Revision artifact +:+ "'") ;;
      modifyObj (withStatus (setStatusArtifact (Some artifact))) ;;
      '(url, err) <- Symlink artifact "latest.tar.gz" ;;
      match err with
      | Some e =>
          Eventf EventSeverityError StorageOperationFailedReason
            ("Failed to update status URL symlink: " +:+ Error e)
      | None => ret tt
      end ;;
      (if bool_decide (url ≠ emptyURL)
       then modifyObj (withStatus (setStatusURL url))
       else ret tt) ;;
      o <- getObj ;;
      ret (mkResult false (GetRequeueAfter o), None, artifact)
  end.

(** The body of [reconcileArtifact]: the directory, the lock, the copy
    under the lock, and the deferred unlock. The artifact is returned as
    the copy left it. *)
Definition publish (artifact : Artifact) (path : string)
    : M (Result * option error * Artifact) :=
  err <- MkdirAll artifact ;;
  match err with
  | Some e =>
      ret (zeroResult,
           Some (wrapError "failed to create artifact directory" e),
           artifact)
  | None =>
      err <- Lock artifact ;;
      match err with
      | Some e =>
          ret (zeroResult,
               Some (wrapError "failed to acquire lock for artifact" e),
               artifact)
      | None =>
          r <- publishLocked artifact path ;;
          Unlock artifact ;;
          ret r
      end
  end.

Definition reconcileArtifact (artifact : Artifact) (path : string)
    : M (Result * option error) :=
  '(result, err, artifact) <- publish artifact path ;;
  restoreReady artifact ;;
  ret (result, err).

(** The stages of [reconcile] that follow the storage stage: the
    working directory, the source, the chart and the artifact. The
    working directory is on the local file system; of it, only the
    failure to create it is part of the model. *)
Definition reconcileAfterStorage : M (Result * option error) :=
  match mkdirTempErr env with
  | Some e =>
      modifyObj (conditions.MarkTrue FetchFailedCondition
        StorageOperationFailedReason
        ("Failed to create temporary working directory: " +:+ Error e)) ;;
      Eventf EventSeverityError StorageOperationFailedReason
        ("Failed to create temporary working directory: " +:+ Error e) ;;
      ret (zeroResult, Some e)
  | None =>
      '(result, err) <- reconcileSource ;;
      if isErr err || IsZero result then ret (result, err)
      else
        '(result, err, artifact, chartPath) <-
          reconcileChart zeroArtifact "" ;;
        if isErr err || IsZero result then ret (result, err)
        else reconcileArtifact artifact chartPath
  end.

Definition reconcile : M (Result * option error) :=
  modifyObj (conditions.MarkReconciling "Reconciling" "") ;;
  '(result, err) <- reconcileStorage ;;
  if isErr err || IsZero result then ret (result, err)
  else reconcileAfterStorage.

(** The conditions the ready summary is computed over, in the order
    they are listed in [Reconcile]. *)
Definition summarized : list string :=
  [BuildFailedCondition; FetchFailedCondition;
   ArtifactOutdatedCondition; ArtifactUnavailableCondition].

Definition sameObject (a b : HelmChart) : bool :=
  bool_decide (Namespace a = Namespace b) && bool_decide (Name a = Name b).

(** Modelled from the spec: [patchHelper.Patch] is part of the runtime
    library. With [withObservedGeneration] the generation is recorded as
    observed on the object; a patch that is accepted replaces the object
    in the cluster, one that is rejected leaves the cluster as it was. *)
Definition Patch (withObservedGeneration : bool) : M (option error) :=
  (if withObservedGeneration then
     modifyObj (fun o =>
       withStatus (setObservedGeneration (Generation o)) o)
   else ret tt) ;;
  match patchErr env with
  | Some e => ret (Some e)
  | None =>
      o <- getObj ;;
      modifyCluster (map (fun c => if sameObject c o then o else c)) ;;
      ret None
  end.

(** The function deferred in [Reconcile], applied to the named results
    of the pass. *)
Definition patchDeferred (result : Result) (retErr : option error)
    : M (Result * option error) :=
  modifyObj (fun o =>
    match Annotations o !! ReconcileRequestAnnotation with
    | Some v => withStatus (SetLastHandledReconcileRequest v) o
    | None => o
    end) ;;
  modifyObj (conditions.SetSummary ReadyCondition summarized summarized) ;;
  observed <-
    (if negb (isErr retErr) && (IsZero result || negb (Requeue result)) then
       modifyObj (conditions.Delete ReconcilingCondition) ;;
       o <- getObj ;;
       match conditions.Get o ReadyCondition with
       | None => panic "invalid memory address or nil pointer dereference"
       | Some readyCondition =>
           match Status readyCondition with
           | ConditionFalse =>
               modifyObj (conditions.MarkStalled
                 (Reason readyCondition) (Message readyCondition))
           | ConditionTrue =>
               modifyObj (conditions.Delete StalledCondition)
           | ConditionUnknown => ret tt
           end
       end ;;
       ret true
     else ret false) ;;
  err <- Patch observed ;;
  ret (result,
       match err with
       | Some e => NewAggregate [retErr; Some e]
       | None => retErr
       end).

(** The body of [Reconcile] below the deferred function: the finalizer
    is added first, an object under deletion goes to [reconcileDelete]
    and any other to [reconcile]. *)
Definition dispatch : M (Result * option error) :=
  o <- getObj ;;
  if negb (ContainsFinalizer o SourceFinalizer) then
    modifyObj (AddFinalizer SourceFinalizer) ;;
    ret (mkResult true 0, None)
  else if negb (IsZeroTime (DeletionTimestamp o)) then reconcileDelete
  else reconcile.

(** What is left of [Reconcile] once the object is fetched, not
    suspended and the patch helper is set up: the body, then the
    deferred function on its results. *)
Definition reconcileFetched : M (Result * option error) :=
  '(result, retErr) <- dispatch ;;
  patchDeferred result retErr.

(** Modelled from the spec: [r.Get] is the accessor's [get]: the object
    stored under the key, or a not-found error. *)
Definition Get (w : World) (key : ObjectKey) : option HelmChart * option error :=
  match getErr env with
  | Some e => (None, Some e)
  | None =>
      match
        list_find (fun c =>
          Namespace c = KeyNamespace key ∧ Name c = KeyName key) (cluster w)
      with
      | Some (_, c) => (Some c, None)
      | None => (None, Some (NotFound (KeyName key)))
      end
  end.

Definition Reconcile (req : ObjectKey) (w : World) : outcome Pass :=
  match Get w req with
  | (Some o, None) =>
      if Suspend (Spec o) then Returned (mkPass zeroResult None (Some o) w)
      else
        match newHelperErr env with
        | Some e => Returned (mkPass zeroResult (Some e) (Some o) w)
        | None =>
            match reconcileFetched (mkState o w) with
            | Returned ((result, retErr), s) =>
                Returned (mkPass result retErr (Some (obj s)) (world s))
            | Panicked msg => Panicked msg
            end
        end
  | (_, err) => Returned (mkPass zeroResult (IgnoreNotFound err) None w)
  end.

(** ** The dependency index and the change handlers *)

Definition indexHelmChartBySource (o : Object) : outcome (list string) :=
  match o with
  | HelmChartObject hc =>
      Returned [RefKind (SourceRef (Spec hc)) +:+ "/" +:+
                RefName (SourceRef (Spec hc))]
  | _ => Panicked ("Expected a HelmChart, got " +:+ typeName o)
  end.

(** A chart is listed under a value of the source index when the
    index function returns that value for it. *)
Definition indexedUnder (key : string) (hc : HelmChart) : bool :=
  match indexHelmChartBySource (HelmChartObject hc) with
  | Returned keys => bool_decide (key ∈ keys)
  | Panicked _ => false
  end.

(** Modelled from the spec: [r.List] with [client.MatchingFields] on the
    source index is the accessor's [list] with a filter that matches an
    index key: the charts listed under the key, or an error. *)
Definition List (w : World) (key : string) : list HelmChart * option error :=
  match listErr env with
  | Some e => ([], Some e)
  | None => (filter (fun hc => indexedUnder key hc = true) (cluster w), None)
  end.

(** The loop that turns the listed items into requests. *)
Definition requestsFor (items : list HelmChart) : list Request :=
  fold_left
    (fun reqs i => (reqs ++ [mkRequest (ObjectKeyFromObject i)])%list)
    items [].

Definition requestsForHelmRepositoryChange (w : World) (o : Object)
    : outcome (list Request) :=
  match o with
  | HelmRepositoryObject repo =>
      match SourceArtifact repo with
      | None => Returned []
      | Some _ =>
          let '(list, err) :=
            List w (HelmRepositoryKind +:+ "/" +:+ SourceName repo) in
          if isErr err then Returned [] else Returned (requestsFor list)
      end
  | _ => Panicked ("Expected a HelmRepository, got " +:+ typeName o)
  end.

Definition requestsForGitRepositoryChange (w : World) (o : Object)
    : outcome (list Request) :=
  match o with
  | GitRepositoryObject repo =>
      match SourceArtifact repo with
      | None => Returned []
      | Some _ =>
          let '(list, err) :=
            List w (GitRepositoryKind +:+ "/" +:+ SourceName repo) in
          if isErr err then Returned [] else Returned (requestsFor list)
      end
  | _ => Panicked ("Expected a GitRepository, got " +:+ typeName o)
  end.

Definition requestsForBucketChange (w : World) (o : Object)
    : outcome (list Request) :=
  match o with
  | BucketObject bucket =>
      match SourceArtifact bucket with
      | None => Returned []
      | Some _ =>
          let '(list, err) :=
            List w (BucketKind +:+ "/" +:+ SourceName bucket) in
          if isErr err then Returned [] else Returned (requestsFor list)
      end
  | _ => Panicked ("Expected a Bucket, got " +:+ typeName o)
  end.

End Reconciler.

(** ** Chart names *)

(** Regular expressions, as far as [validHelmChartName] needs them:
    classes of byte ranges, concatenation, alternation and repetition.
    A class with a single character is a range from it to itself. *)
Inductive regexp : Type :=
| ReNone
| ReEmpty
| ReClass (ranges : list (ascii * ascii))
| ReCat (r1 r2 : regexp)
| ReAlt (r1 r2 : regexp)
| ReStar (r : regexp).

Definition inRange (c : ascii) (range : ascii * ascii) : bool :=
  (nat_of_ascii (fst range) <=? nat_of_ascii c)%nat
  && (nat_of_ascii c <=? nat_of_ascii (snd range))%nat.

Definition inClass (ranges : list (ascii * ascii)) (c : ascii) : bool :=
  existsb (inRange c) ranges.

(** Matching by derivatives: [nullable r] tells whether [r] matches the
    empty string, and [derive c r] matches what is left of the strings
    that [r] matches and that start with [c]. *)
Fixpoint nullable (r : regexp) : bool :=
  match r with
  | ReNone => false
  | ReEmpty => true
  | ReClass _ => false
  | ReCat r1 r2 => nullable r1 && nullable r2
  | ReAlt r1 r2 => nullable r1 || nullable r2
  | ReStar _ => true
  end.

Fixpoint derive (c : ascii) (r : regexp) : regexp :=
  match r with
  | ReNone => ReNone
  | ReEmpty => ReNone
  | ReClass ranges => if inClass ranges c then ReEmpty else ReNone
  | ReCat r1 r2 =>
      if nullable r1 then ReAlt (ReCat (derive c r1) r2) (derive c r2)
      else ReCat (derive c r1) r2
  | ReAlt r1 r2 => ReAlt (derive c r1) (derive c r2)
  | ReStar r1 => ReCat (derive c r1) (ReStar r1)
  end.

(** [MatchString] on a pattern that is anchored at both ends, as the
    one of the source is ([^] and [$], without the multi-line flag):
    the whole string matches. *)
Fixpoint MatchString (r : regexp) (s : string) : bool :=
  match s with
  | EmptyString => nullable r
  | String c rest => MatchString (derive c r) rest
  end.

(** The pattern that [validHelmChartName] compiles: between the start
    and the end of the text, a group of any number of characters of the
    class of the dash, the letters a to z and the digits 0 to 9. The
    group captures nothing that is used. *)
Definition chartFmt : regexp :=
  ReStar (ReClass [("-", "-"); ("a", "z"); ("0", "9")]%char).

(** [validHelmChartName] returns an error if the string is not a valid
    Helm chart name. *)
Definition validHelmChartName (s : string) : option error :=
  if negb (MatchString chartFmt s) then
    Some (errorString
            ("invalid chart name '" +:+ s +:+
             "', a valid name must be lower case letters and numbers and MAY be separated with dashes (-)"))
  else None.

(** * Predicates of the properties *)

(** A computation returns: it does not panic, whatever the state. *)
Definition returns {A : Type} (m : M A) : Prop :=
  forall s, exists a s', m s = Returned (a, s').

(** The ready condition is the summary of the tracked conditions: false
    with the reason and message of the first of them that is true, in
    the order of [summarized], and true when none of them is. *)
Definition ReadinessDerived (o : HelmChart) : Prop :=
  match conditions.firstTrue o summarized with
  | Some c =>
      conditions.Get o ReadyCondition
      = Some (mkCondition ConditionFalse (Reason c) (Message c))
  | None => conditions.IsTrue o ReadyCondition = true
  end.

Definition IsFalse (o : HelmChart) (t : string) : bool :=
  match conditions.Get o t with
  | Some c => bool_decide (Status c = ConditionFalse)
  | None => false
  end.

(** What the specification says of the ready condition of an object
    after a pass: it is false exactly when one of the four tracked
    conditions is true, it then carries the reason and message of the
    first true one in the order build-failed, fetch-failed,
    artifact-outdated, artifact-unavailable, and it is true otherwise. *)
Definition ReadySummarizes (o : HelmChart) : Prop :=
  (IsFalse o ReadyCondition = true
   <-> exists t,
         t ∈ [BuildFailedCondition; FetchFailedCondition;
              ArtifactOutdatedCondition; ArtifactUnavailableCondition]
         /\ conditions.IsTrue o t = true)
  /\ (forall c,
        conditions.firstTrue o
          [BuildFailedCondition; FetchFailedCondition;
           ArtifactOutdatedCondition; ArtifactUnavailableCondition] = Some c ->
        conditions.Get o ReadyCondition
        = Some (mkCondition ConditionFalse (Reason c) (Message c)))
  /\ ((forall t,
         t ∈ [BuildFailedCondition; FetchFailedCondition;
              ArtifactOutdatedCondition; ArtifactUnavailableCondition] ->
         conditions.IsTrue o t = false) ->
      conditions.IsTrue o ReadyCondition = true).

(** The advertised artifact, if any, is in the store. *)
Definition advertisedInStore (s : State) : bool :=
  match GetArtifact (obj s) with
  | Some a => ArtifactExist (storage (world s)) a
  | None => false
  end.

Definition noArtifactCondition : Condition :=
  mkCondition ConditionTrue "NoArtifact" "No artifact for resource in storage".

(** The value under which [indexHelmChartBySource] lists a chart. *)
Definition indexKey (hc : HelmChart) : string :=
  RefKind (SourceRef (Spec hc)) +:+ "/" +:+ RefName (SourceRef (Spec hc)).

(** The requests the specification asks of a change handler: none for a
    source without an artifact, and otherwise one for each chart of the
    cluster that is indexed under the kind and name of the source. *)
Definition requestsExpected (kind : string) (src : Source) (w : World)
    : list Request :=
  match SourceArtifact src with
  | None => []
  | Some _ =>
      map (fun hc => mkRequest (ObjectKeyFromObject hc))
        (filter (fun hc => indexKey hc = kind +:+ "/" +:+ SourceName src)
           (cluster w))
  end.

(** Every character of the string satisfies the test. *)
Fixpoint allChars (P : ascii -> bool) (s : string) : bool :=
  match s with
  | EmptyString => true
  | String c rest => P c && allChars P rest
  end.

(** The characters of the class of [chartFmt]. *)
Definition isChartChar (c : ascii) : bool :=
  inClass [("-", "-"); ("a", "z"); ("0", "9")]%char c.

(** The string holds no separator of index keys. *)
Fixpoint noSlash (s : string) : bool :=
  match s with
  | EmptyString => true
  | String c rest => negb (bool_decide (c = "/"%char)) && noSlash rest
  end.

(** The string of [n] dashes. *)
Fixpoint dashes (n : nat) : string :=
  match n with
  | O => ""
  | S n => String "-" (dashes n)
  end.

(** The requests for the charts whose source reference has the kind
    given and the name of the source. *)
Definition requestsByRef (kind : string) (src : Source) (w : World)
    : list Request :=
  map (fun hc => mkRequest (ObjectKeyFromObject hc))
    (filter (fun hc => RefKind (SourceRef (Spec hc)) = kind
                       /\ RefName (SourceRef (Spec hc)) = SourceName src)
       (cluster w)).

(** The calls [reconcileArtifact] makes on the store, the error it
    returns and the events it emits, by the first of its steps that
    fails. *)
Definition publishCalls (env : Env) (p : ArtifactPath) (path : string)
    : list StoreOp :=
  match mkdirAllErr env, lockErr env, snd (copyFromPath env) with
  | Some _, _, _ => [OpMkdirAll p]
  | None, Some _, _ => [OpMkdirAll p; OpLock p]
  | None, None, Some _ =>
      [OpMkdirAll p; OpLock p; OpCopyFromPath p path; OpUnlock p]
  | None, None, None =>
      [OpMkdirAll p; OpLock p; OpCopyFromPath p path;
       OpSymlink p "latest.tar.gz"; OpUnlock p]
  end.

Definition publishError (env : Env) : option error :=
  match mkdirAllErr env, lockErr env, snd (copyFromPath env) with
  | Some e, _, _ => Some (wrapError "failed to create artifact directory" e)
  | None, Some e, _ => Some (wrapError "failed to acquire lock for artifact" e)
  | None, None, Some e => Some e
  | None, None, None => None
  end.

Definition publishEvents (env : Env) (artifact : Artifact) : list Event :=
  match mkdirAllErr env, lockErr env, copyFromPath env with
  | Some _, _, _ => []
  | None, Some _, _ => []
  | None, None, (_, Some e) =>
      [mkEvent EventSeverityError StorageOperationFailedReason
         ("Failed to write Helm repository index to storage: " +:+ Error e) []]
  | None, None, (sum, None) =>
      mkEvent EventSeverityInfo "NewArtifact"
        ("Stored artifact for revision '" +:+ Revision artifact +:+ "'")
        [("revision", Revision artifact); ("checksum", sum)]
      :: match symlinkErr env with
         | Some e =>
             [mkEvent EventSeverityError StorageOperationFailedReason
                ("Failed to update status URL symlink: " +:+ Error e) []]
         | None => []
         end
  end.

(** The spec and the metadata other than the finalizers are the same. *)
Definition sameDesired (o o' : HelmChart) : Prop :=
  Kind o' = Kind o /\ Namespace o' = Namespace o /\ Name o' = Name o
  /\ Generation o' = Generation o
  /\ DeletionTimestamp o' = DeletionTimestamp o
  /\ Annotations o' = Annotations o /\ Spec o' = Spec o.

(** A computation returns and keeps the spec and the metadata of the
    object. *)
Definition keepsDesired {A : Type} (m : M A) : Prop :=
  forall s, exists a s', m s = Returned (a, s') /\ sameDesired (obj s) (obj s').

(** The stalled condition mirrors a ready condition that is false, and
    is absent when the ready condition is true. *)
Definition StalledMirrorsReady (o : HelmChart) : Prop :=
  match conditions.Get o ReadyCondition with
  | Some c =>
      match Status c with
      | ConditionFalse =>
          conditions.Get o StalledCondition
          = Some (mkCondition ConditionTrue (Reason c) (Message c))
      | ConditionTrue => conditions.Get o StalledCondition = None
      | ConditionUnknown => True
      end
  | None => False
  end.

(** * Sample objects

    A chart [default/app] that refers to the Helm repository [repo], a
    store on the host [source-controller], and environments in which the
    collaborators succeed except where said. *)

Definition sampleEnv (version : string) (listE removeAllE removeButCurrentE : option error)
    (copy : string * option error) : Env :=
  mkEnv None listE None None None None
    (mkChartMetadata "chart" version, None) None (false, None) (0, None)
    ("/tmp/default-app-1/chart-" +:+ version +:+ ".tgz", None)
    None None copy None removeAllE removeButCurrentE.

Definition envOk (version : string) : Env :=
  sampleEnv version None None None ("c0ffee", None).

Definition sampleArtifact (revision : string) : Artifact :=
  mkArtifact (mkPath "HelmChart/default/app" ("chart-" +:+ revision +:+ ".tgz"))
    (mkURL "old-host" ("HelmChart/default/app/chart-" +:+ revision +:+ ".tgz"))
    revision "c0ffee".

Definition sampleChart (generation : Z) (deletion : option Z) (suspend : bool)
    (conds : gmap string Condition) (a : option Artifact) : HelmChart :=
  mkHelmChart "HelmChart" "default" "app" generation deletion
    [SourceFinalizer] ∅
    (mkSpec (mkSourceRef HelmRepositoryKind "repo") 60 [] suspend)
    (mkStatus 1 conds emptyURL a "").

Definition sampleStorage (stored : list ArtifactPath) : Storage :=
  mkStorage "source-controller" stored [] [].

Definition sampleState (o : HelmChart) (stored : list ArtifactPath) : State :=
  mkState o (mkWorld [o] (sampleStorage stored) []).

Definition sampleKey : ObjectKey := mkKey "default" "app".

Definition readyTrue (revision : string) : Condition :=
  mkCondition ConditionTrue SucceededReason
    ("Stored artifact for revision '" +:+ revision +:+ "'").


(** The copy into the store fails. *)
Definition envCopyFails (version : string) : Env :=
  sampleEnv version None None None
    ("", Some (errorString "write: no space left on device")).

(** A chart whose spec changed (generation 2, observed 1) while it
    advertises revision 1.2.0 and has no ready condition. *)
Definition staleChart : HelmChart :=
  sampleChart 2 None false ∅ (Some (sampleArtifact "1.2.0")).

(** A chart that is ready at revision 1.2.0 and whose generation is
    observed. *)
Definition readyChart : HelmChart :=
  sampleChart 1 None false {[ ReadyCondition := readyTrue "1.2.0" ]}
    (Some (sampleArtifact "1.2.0")).

Definition readyWorld : World :=
  world (sampleState readyChart [Path (sampleArtifact "1.2.0")]).

(** The copy of the empty path fails, everything else succeeds. *)
Definition envNoSourceFile : Env :=
  sampleEnv "1.2.0" None None None
    ("", Some (errorString "open : no such file or directory")).

(** The accessor fails to list. *)
Definition envListFails : Env :=
  sampleEnv "1.2.0" (Some (errorString "context deadline exceeded")) None None
    ("c0ffee", None).

(** A source with an artifact, and a cluster with one chart that refers
    to it as a Helm repository and one that refers to a Git repository
    of the same name. *)
Definition sampleSource : Source :=
  mkSource "default" "repo" (Some (sampleArtifact "index-1")).

Definition gitChart : HelmChart :=
  mkHelmChart "HelmChart" "default" "from-git" 1 None [SourceFinalizer] ∅
    (mkSpec (mkSourceRef GitRepositoryKind "repo") 60 [] false)
    (mkStatus 1 ∅ emptyURL None "").

Definition sampleCluster : World :=
  mkWorld [readyChart; gitChart] (sampleStorage []) [].

(** The alias cannot be refreshed, everything else succeeds. *)
Definition envAliasFails : Env :=
  mkEnv None None None None None None
    (mkChartMetadata "chart" "1.3.0", None) None (false, None) (0, None)
    ("/tmp/default-app-1/chart-1.3.0.tgz", None)
    None None ("c0ffee", None) (Some (errorString "symlink: file exists"))
    None None.

(** The working directory cannot be created. *)
Definition envNoWorkDir : Env :=
  mkEnv None None None None
    (Some (errorString "mkdir /tmp: read-only file system")) None
    (mkChartMetadata "chart" "1.3.0", None) None (false, None) (0, None)
    ("/tmp/default-app-1/chart-1.3.0.tgz", None)
    None None ("c0ffee", None) None None None.

(** A chart that was just created: no finalizer and no status. *)
Definition newChart : HelmChart :=
  mkHelmChart "HelmChart" "default" "app" 1 None [] ∅
    (mkSpec (mkSourceRef HelmRepositoryKind "repo") 60 [] false)
    (mkStatus 0 ∅ emptyURL None "").

(** A ready chart whose reconciliation was requested. *)
Definition requestedChart : HelmChart :=
  mkHelmChart "HelmChart" "default" "app" 1 None [SourceFinalizer]
    {[ ReconcileRequestAnnotation := "2021-07-30T10:00:00Z" ]}
    (mkSpec (mkSourceRef HelmRepositoryKind "repo") 60 [] false)
    (mkStatus 1 {[ ReadyCondition := readyTrue "1.2.0" ]} emptyURL
       (Some (sampleArtifact "1.2.0")) "").

(** * Properties *)

(** Unfolding of the monad's primitives. *)
Ltac run :=
  cbv [bind ret getObj modifyObj getStorage modifyStorage modifyFiles
       modifyLocks modifyCluster logCall Eventf EventWithMetaf];
  cbn [obj world storage events cluster files locks calls Hostname
       fst snd].

(** ** The stages return *)

Lemma returns_ret {A : Type} (a : A) : returns (ret a).
Proof. intros s. by exists a, s. Qed.

Lemma returns_bind {A B : Type} (m : M A) (k : A -> M B) :
  returns m -> (forall a, returns (k a)) -> returns (bind m k).
Proof.
  intros Hm Hk s. unfold bind.
  destruct (Hm s) as (a & s1 & ->). apply Hk.
Qed.

Lemma returns_getObj : returns getObj.
Proof. intros s. by eexists _, _. Qed.

Lemma returns_getStorage : returns getStorage.
Proof. intros s. by eexists _, _. Qed.

Lemma returns_modifyObj (f : HelmChart -> HelmChart) : returns (modifyObj f).
Proof. intros s. by eexists _, _. Qed.

Lemma returns_modifyStorage (f : Storage -> Storage) :
  returns (modifyStorage f).
Proof. intros s. by eexists _, _. Qed.

Lemma returns_modifyCluster (f : list HelmChart -> list HelmChart) :
  returns (modifyCluster f).
Proof. intros s. by eexists _, _. Qed.

Lemma returns_EventWithMetaf (meta : list (string * string))
    (severity reason message : string) :
  returns (EventWithMetaf meta severity reason message).
Proof. intros s. by eexists _, _. Qed.

Ltac returns_step :=
  match goal with
  | |- returns (bind _ _) => apply returns_bind; [|intros ?]
  | |- returns (ret _) => apply returns_ret
  | |- returns getObj => apply returns_getObj
  | |- returns getStorage => apply returns_getStorage
  | |- returns (modifyObj _) => apply returns_modifyObj
  | |- returns (modifyStorage _) => apply returns_modifyStorage
  | |- returns (modifyCluster _) => apply returns_modifyCluster
  | |- returns (EventWithMetaf _ _ _ _) => apply returns_EventWithMetaf
  | |- returns (match ?x with _ => _ end) => destruct x
  | |- returns (let '(_, _) := ?x in _) => destruct x
  end.

Ltac returns_auto := repeat returns_step.

Lemma returns_garbageCollect (env : Env) : returns (garbageCollect env).
Proof.
  unfold garbageCollect, RemoveAll, RemoveAllButCurrent, Eventf, logCall,
    modifyFiles. returns_auto.
Qed.

Lemma returns_reconcileDelete (env : Env) : returns (reconcileDelete env).
Proof.
  unfold reconcileDelete. apply returns_bind; [apply returns_garbageCollect|].
  intros ?. returns_auto.
Qed.

Lemma returns_reconcileStorage (env : Env) : returns (reconcileStorage env).
Proof.
  unfold reconcileStorage. apply returns_bind; [apply returns_garbageCollect|].
  intros ?. returns_auto.
Qed.

Lemma returns_reconcileArtifact (env : Env) (a : Artifact) (path : string) :
  returns (reconcileArtifact env a path).
Proof.
  unfold reconcileArtifact, publish, restoreReady, publishLocked, MkdirAll,
    Lock, Unlock,
    CopyFromPath, Symlink, Eventf, logCall, modifyFiles, modifyLocks.
  returns_auto.
Qed.

Lemma returns_reconcileAfterStorage (env : Env) :
  returns (reconcileAfterStorage env).
Proof.
  unfold reconcileAfterStorage, reconcileSource, reconcileChart, Eventf.
  returns_auto; apply returns_reconcileArtifact.
Qed.

Lemma returns_reconcile (env : Env) : returns (reconcile env).
Proof.
  unfold reconcile. apply returns_bind; [returns_auto|]. intros ?.
  apply returns_bind; [apply returns_reconcileStorage|]. intros [? ?].
  returns_auto. apply returns_reconcileAfterStorage.
Qed.

(** ** Conditions and the ready summary *)

Lemma Get_Set (t u : string) (c : Condition) (o : HelmChart) :
  conditions.Get (conditions.Set_ t c o) u
  = if decide (t = u) then Some c else conditions.Get o u.
Proof.
  unfold conditions.Get, conditions.Set_, GetConditions. cbn.
  apply lookup_insert.
Qed.

Lemma Get_Delete (t u : string) (o : HelmChart) :
  conditions.Get (conditions.Delete t o) u
  = if decide (t = u) then None else conditions.Get o u.
Proof.
  unfold conditions.Get, conditions.Delete, GetConditions. cbn.
  apply lookup_delete.
Qed.

Lemma firstTrue_ext (o o' : HelmChart) (l : list string) :
  (forall t, t ∈ l -> conditions.Get o' t = conditions.Get o t) ->
  conditions.firstTrue o' l = conditions.firstTrue o l.
Proof.
  induction l as [|t l IH]; intros H; [reflexivity|].
  cbn. rewrite (H t) by (left). rewrite IH; [reflexivity|].
  intros u Hu. apply H. now right.
Qed.

Lemma firstTrue_Some (o : HelmChart) (l : list string) :
  (exists c, conditions.firstTrue o l = Some c)
  <-> exists t, t ∈ l /\ conditions.IsTrue o t = true.
Proof.
  unfold conditions.IsTrue.
  induction l as [|t l IH]; cbn.
  - split; [intros [c Hc]; discriminate | intros (t & Ht & _)].
    by apply elem_of_nil in Ht.
  - destruct (conditions.Get o t) as [c|] eqn:Hget.
    + destruct (bool_decide (Status c = ConditionTrue)) eqn:Hst.
      * split; [intros _|intros _; eauto].
        exists t. split; [left|]. by rewrite Hget.
      * rewrite IH. split.
        -- intros (u & Hu & Htrue). exists u. split; [by right|done].
        -- intros (u & Hu & Htrue). apply elem_of_cons in Hu as [->|Hu].
           ++ rewrite Hget in Htrue. congruence.
           ++ eauto.
    + rewrite IH. split.
      * intros (u & Hu & Htrue). exists u. split; [by right|done].
      * intros (u & Hu & Htrue). apply elem_of_cons in Hu as [->|Hu].
        -- rewrite Hget in Htrue. discriminate.
        -- eauto.
Qed.

Lemma firstTrue_is_true (o : HelmChart) (l : list string) (c : Condition) :
  conditions.firstTrue o l = Some c -> Status c = ConditionTrue.
Proof.
  induction l as [|t l IH]; cbn; [discriminate|].
  destruct (conditions.Get o t) as [c'|]; [|exact IH].
  destruct (bool_decide (Status c' = ConditionTrue)) eqn:Hst; [|exact IH].
  intros [= <-]. by apply bool_decide_eq_true in Hst.
Qed.

Lemma summarized_filter :
  filter (fun t => t ∈ summarized) summarized = summarized.
Proof. reflexivity. Qed.

Lemma not_summarized_Ready (t : string) : t ∈ summarized -> ReadyCondition <> t.
Proof.
  intros H E. subst t. revert H. unfold summarized. rewrite !elem_of_cons, elem_of_nil.
  intros [H|[H|[H|[H|[]]]]]; discriminate H.
Qed.

Lemma SetSummary_derived (o : HelmChart) :
  ReadinessDerived (conditions.SetSummary ReadyCondition summarized summarized o).
Proof.
  unfold ReadinessDerived, conditions.SetSummary. rewrite summarized_filter.
  destruct (conditions.firstTrue o summarized) as [c|] eqn:Hfirst.
  - rewrite (firstTrue_ext o).
    + rewrite Hfirst. unfold conditions.MarkFalse. rewrite Get_Set.
      by rewrite decide_True.
    + intros t Ht. unfold conditions.MarkFalse. rewrite Get_Set.
      rewrite decide_False; [done|by apply not_summarized_Ready].
  - destruct (conditions.IsTrue o ReadyCondition) eqn:Hready.
    + by rewrite Hfirst.
    + rewrite (firstTrue_ext o).
      * rewrite Hfirst. unfold conditions.IsTrue, conditions.MarkTrue.
        rewrite Get_Set. by rewrite decide_True.
      * intros t Ht. unfold conditions.MarkTrue. rewrite Get_Set.
        rewrite decide_False; [done|by apply not_summarized_Ready].
Qed.

Lemma ReadinessDerived_ext (o o' : HelmChart) :
  (forall t, t ∈ summarized -> conditions.Get o' t = conditions.Get o t) ->
  conditions.Get o' ReadyCondition = conditions.Get o ReadyCondition ->
  ReadinessDerived o -> ReadinessDerived o'.
Proof.
  intros Hs Hr. unfold ReadinessDerived, conditions.IsTrue.
  rewrite (firstTrue_ext o o') by done. by rewrite Hr.
Qed.

Lemma SetSummary_Get (target : string) (l n : list string) (o : HelmChart) (u : string) :
  u <> target ->
  conditions.Get (conditions.SetSummary target l n o) u = conditions.Get o u.
Proof.
  intros Hne. unfold conditions.SetSummary.
  destruct (conditions.firstTrue o _) as [c|].
  - unfold conditions.MarkFalse. rewrite Get_Set. by rewrite decide_False.
  - destruct (conditions.IsTrue o target); [reflexivity|].
    unfold conditions.MarkTrue. rewrite Get_Set. by rewrite decide_False.
Qed.

Lemma SetSummary_frame (target : string) (l n : list string) (o : HelmChart) :
  exists conds,
    conditions.SetSummary target l n o = withStatus (setConditions conds) o.
Proof.
  unfold conditions.SetSummary.
  destruct (conditions.firstTrue o _) as [c|]; [eexists; reflexivity|].
  destruct (conditions.IsTrue o target); [|eexists; reflexivity].
  exists (GetConditions o). by destruct o as [? ? ? ? ? ? ? ? []].
Qed.

Lemma ReadinessDerived_ready (o : HelmChart) :
  ReadinessDerived o -> exists c, conditions.Get o ReadyCondition = Some c.
Proof.
  unfold ReadinessDerived, conditions.IsTrue.
  destruct (conditions.firstTrue o summarized); [eauto|].
  destruct (conditions.Get o ReadyCondition); [eauto|discriminate].
Qed.

Lemma summarized_cases (t : string) :
  t ∈ summarized ->
  t <> ReadyCondition /\ t <> ReconcilingCondition /\ t <> StalledCondition.
Proof.
  unfold summarized. rewrite !elem_of_cons, elem_of_nil.
  intros [->|[->|[->|[->|[]]]]]; repeat split; discriminate.
Qed.

Ltac conds :=
  repeat first
    [ rewrite Get_Set | rewrite Get_Delete
    | rewrite decide_False by (first [done | congruence])
    | rewrite decide_True by done ].

Lemma patchDeferred_spec (env : Env) (result : Result) (retErr : option error)
    (s : State) :
  exists s',
    patchDeferred env result retErr s
    = Returned ((result,
                 match patchErr env with
                 | Some e => NewAggregate [retErr; Some e]
                 | None => retErr
                 end), s')
    /\ Finalizers (obj s') = Finalizers (obj s)
    /\ GetArtifact (obj s') = GetArtifact (obj s)
    /\ storage (world s') = storage (world s)
    /\ events (world s') = events (world s)
    /\ (forall t, t ∈ summarized ->
          conditions.Get (obj s') t = conditions.Get (obj s) t)
    /\ ReadinessDerived (obj s').
Proof.
  unfold patchDeferred. run.
  set (o1 := match Annotations (obj s) !! ReconcileRequestAnnotation with
             | Some v => withStatus (SetLastHandledReconcileRequest v) (obj s)
             | None => obj s
             end).
  assert (Hfin1 : Finalizers o1 = Finalizers (obj s)
                  /\ GetArtifact o1 = GetArtifact (obj s)
                  /\ forall t, conditions.Get o1 t = conditions.Get (obj s) t).
  { subst o1. by destruct (Annotations (obj s) !! _). }
  destruct Hfin1 as (Hfin1 & Hart1 & Hget1).
  pose proof (SetSummary_derived o1) as Hder.
  pose proof (SetSummary_Get ReadyCondition summarized summarized o1) as Hsum.
  destruct (SetSummary_frame ReadyCondition summarized summarized o1)
    as [conds Hframe].
  set (o2 := conditions.SetSummary ReadyCondition summarized summarized o1) in *.
  assert (Hfin2 : Finalizers o2 = Finalizers (obj s)
                  /\ GetArtifact o2 = GetArtifact (obj s)).
  { rewrite Hframe. cbn. by rewrite <- Hfin1, <- Hart1. }
  destruct Hfin2 as [Hfin2 Hart2].
  destruct (ReadinessDerived_ready _ Hder) as [c Hc].
  assert (Hkeep : forall o',
    Finalizers o' = Finalizers o2 -> GetArtifact o' = GetArtifact o2 ->
    (forall t, t <> ReconcilingCondition -> t <> StalledCondition ->
       conditions.Get o' t = conditions.Get o2 t) ->
    forall b, exists s',
      Patch env b (mkState o' (world s)) = Returned (patchErr env, s')
      /\ Finalizers (obj s') = Finalizers (obj s)
      /\ GetArtifact (obj s') = GetArtifact (obj s)
      /\ storage (world s') = storage (world s)
      /\ events (world s') = events (world s)
      /\ (forall t, t ∈ summarized ->
            conditions.Get (obj s') t = conditions.Get (obj s) t)
      /\ ReadinessDerived (obj s')).
  { intros o' Hf Ha Hg b.
    assert (Hres : forall o'',
      Finalizers o'' = Finalizers o' -> GetArtifact o'' = GetArtifact o' ->
      (forall t, conditions.Get o'' t = conditions.Get o' t) ->
      Finalizers o'' = Finalizers (obj s)
      /\ GetArtifact o'' = GetArtifact (obj s)
      /\ (forall t, t ∈ summarized ->
            conditions.Get o'' t = conditions.Get (obj s) t)
      /\ ReadinessDerived o'').
    { intros o'' Hf' Ha' Hg'. split; [congruence|]. split; [congruence|].
      assert (Hs : forall t, t ∈ summarized ->
                conditions.Get o'' t = conditions.Get o2 t).
      { intros t Ht. destruct (summarized_cases t Ht) as (? & ? & ?).
        rewrite Hg'. by apply Hg. }
      split.
      - intros t Ht. rewrite (Hs t Ht).
        destruct (summarized_cases t Ht) as (? & ? & ?).
        subst o2. rewrite Hsum by done. apply Hget1.
      - apply (ReadinessDerived_ext o2); [done| |done].
        rewrite Hg'. by apply Hg. }
    unfold Patch. run.
    destruct b, (patchErr env); run; eexists; (split; [reflexivity|]); cbn;
      repeat split; try apply Hres; try done. }
  destruct (negb (isErr retErr) && (IsZero result || negb (Requeue result))).
  - cbn [obj world]. conds. rewrite Hc.
    destruct (Status c); run; unfold panic.
    + edestruct (Hkeep (conditions.Delete StalledCondition
                          (conditions.Delete ReconcilingCondition o2)))
        as (s' & -> & H); [done|done| |by eauto].
      intros t ? ?. by conds.
    + edestruct (Hkeep (conditions.MarkStalled (Reason c) (Message c)
                          (conditions.Delete ReconcilingCondition o2)))
        as (s' & -> & H); [done|done| |by eauto].
      intros t ? ?. unfold conditions.MarkStalled, conditions.MarkTrue. by conds.
    + edestruct (Hkeep (conditions.Delete ReconcilingCondition o2))
        as (s' & -> & H); [done|done| |by eauto].
      intros t ? ?. by conds.
  - cbn [obj world]. edestruct (Hkeep o2) as (s' & -> & H); [done|done|done|by eauto].
Qed.

(** ** The pass and its deferred patch *)

Lemma returns_dispatch (env : Env) : returns (dispatch env).
Proof.
  unfold dispatch. apply returns_bind; [apply returns_getObj|]. intros o.
  destruct (negb (ContainsFinalizer o SourceFinalizer)); [returns_auto|].
  destruct (negb (IsZeroTime (DeletionTimestamp o)));
    [apply returns_reconcileDelete | apply returns_reconcile].
Qed.

Lemma dispatch_delete (env : Env) (s : State) :
  ContainsFinalizer (obj s) SourceFinalizer = true ->
  IsZeroTime (DeletionTimestamp (obj s)) = false ->
  dispatch env s = reconcileDelete env s.
Proof. intros Hf Hd. unfold dispatch. run. by rewrite Hf, Hd. Qed.

Lemma dispatch_reconcile (env : Env) (s : State) :
  ContainsFinalizer (obj s) SourceFinalizer = true ->
  IsZeroTime (DeletionTimestamp (obj s)) = true ->
  dispatch env s = reconcile env s.
Proof. intros Hf Hd. unfold dispatch. run. by rewrite Hf, Hd. Qed.

(** A pass over a fetched object is its body followed by the deferred
    function. *)
Lemma reconcileFetched_spec (env : Env) (s : State) :
  exists r e s1 s',
    dispatch env s = Returned ((r, e), s1)
    /\ patchDeferred env r e s1
       = Returned ((r, match patchErr env with
                       | Some pe => NewAggregate [e; Some pe]
                       | None => e
                       end), s')
    /\ reconcileFetched env s = patchDeferred env r e s1.
Proof.
  destruct (returns_dispatch env s) as ([r e] & s1 & Hbody).
  destruct (patchDeferred_spec env r e s1) as (s' & Hpatch & _).
  exists r, e, s1, s'. split; [done|]. split; [done|].
  unfold reconcileFetched. run. by rewrite Hbody.
Qed.

Lemma Reconcile_fetched (env : Env) (req : ObjectKey) (w : World) (o : HelmChart) :
  Get env w req = (Some o, None) ->
  Suspend (Spec o) = false ->
  newHelperErr env = None ->
  Reconcile env req w
  = match reconcileFetched env (mkState o w) with
    | Returned ((result, retErr), s) =>
        Returned (mkPass result retErr (Some (obj s)) (world s))
    | Panicked msg => Panicked msg
    end.
Proof. intros Hget Hs Hh. unfold Reconcile. by rewrite Hget, Hs, Hh. Qed.

Lemma ReadinessDerived_claim (o : HelmChart) :
  ReadinessDerived o -> ReadySummarizes o.
Proof.
  unfold ReadinessDerived, ReadySummarizes. intros Hder.
  change [BuildFailedCondition; FetchFailedCondition;
          ArtifactOutdatedCondition; ArtifactUnavailableCondition]
    with summarized.
  rewrite <- firstTrue_Some.
  destruct (conditions.firstTrue o summarized) as [c|] eqn:Hfirst.
  - repeat split.
    + eauto.
    + intros _. unfold IsFalse. by rewrite Hder.
    + congruence.
    + intros Hnone.
      assert (Hex : exists c, conditions.firstTrue o summarized = Some c) by eauto.
      apply firstTrue_Some in Hex as (t & Ht & Htrue).
      rewrite Hnone in Htrue by done. discriminate.
  - repeat split.
    + unfold IsFalse, conditions.IsTrue in *.
      destruct (conditions.Get o ReadyCondition) as [c|]; [|discriminate].
      apply bool_decide_eq_true in Hder. rewrite Hder.
      intros H. apply bool_decide_eq_true in H. discriminate.
    + intros [c Hc]. discriminate.
    + discriminate.
    + done.
Qed.

(** C2 (as amended), for an object that the pass fetched. If the object
    is not suspended and the patch helper was set up, the pass reaches
    the deferred status patch: it returns and leaves the ready condition
    as the summary of the four tracked conditions, false exactly when
    one of them is true, then with the reason and message of the first
    true one in the order build-failed, fetch-failed, artifact-outdated,
    artifact-unavailable, and true otherwise. If the object is
    suspended, the pass returns the zero result and no error before the
    deferred function is set up: the object it leaves is the one it
    fetched, conditions included, and the cluster, the store and the
    events are as they were. *)
Theorem Reconcile_ready_summary (env : Env) (req : ObjectKey) (w : World)
    (o : HelmChart) :
  Get env w req = (Some o, None) ->
  (Suspend (Spec o) = false ->
   newHelperErr env = None ->
   exists p o',
     Reconcile env req w = Returned p
     /\ passObj p = Some o'
     /\ ReadySummarizes o')
  /\ (Suspend (Spec o) = true ->
      Reconcile env req w = Returned (mkPass zeroResult None (Some o) w)).
Proof.
  intros Hget. split.
  - intros Hs Hh. rewrite (Reconcile_fetched env req w o) by done.
    destruct (reconcileFetched_spec env (mkState o w))
      as (r & e & s1 & s' & _ & _ & ->).
    destruct (patchDeferred_spec env r e s1)
      as (s2 & -> & _ & _ & _ & _ & _ & Hder).
    eexists _, _. split; [reflexivity|]. split; [reflexivity|].
    by apply ReadinessDerived_claim.
  - intros Hs. unfold Reconcile. by rewrite Hget, Hs.
Qed.

(** The pass of the witness below: the chart advertises no artifact and
    the working directory cannot be created, so the pass ends with
    artifact-unavailable and fetch-failed both true. *)
Lemma workdir_pass_conditions (p : Pass) (o' : HelmChart) :
  Reconcile envNoWorkDir sampleKey
    (world (sampleState (sampleChart 1 None false ∅ None) [])) = Returned p ->
  passObj p = Some o' ->
  conditions.IsTrue o' BuildFailedCondition = false
  /\ conditions.Get o' FetchFailedCondition
     = Some (mkCondition ConditionTrue StorageOperationFailedReason
               "Failed to create temporary working directory: mkdir /tmp: read-only file system")
  /\ conditions.Get o' ArtifactUnavailableCondition = Some noArtifactCondition
  /\ conditions.Get o' ReadyCondition
     = Some (mkCondition ConditionFalse StorageOperationFailedReason
               "Failed to create temporary working directory: mkdir /tmp: read-only file system").
Proof.
  intros Hrun Hobj. vm_compute in Hrun. injection Hrun as <-.
  cbn [passObj] in Hobj. injection Hobj as <-.
  repeat split; reflexivity.
Qed.

(** The theorem at two passes. The first is over a chart without an
    artifact in an environment in which the working directory cannot be
    created: it ends with fetch-failed and artifact-unavailable true,
    and the ready condition is false with the reason and message of
    fetch-failed, the earlier of the two in the order. The second is
    over a suspended chart that is ready: it is returned as it was. *)
Lemma Reconcile_ready_summary_witness :
  (exists p o',
     Reconcile envNoWorkDir sampleKey
       (world (sampleState (sampleChart 1 None false ∅ None) [])) = Returned p
     /\ passObj p = Some o'
     /\ ReadySummarizes o'
     /\ conditions.IsTrue o' BuildFailedCondition = false
     /\ conditions.Get o' FetchFailedCondition
        = Some (mkCondition ConditionTrue StorageOperationFailedReason
                  "Failed to create temporary working directory: mkdir /tmp: read-only file system")
     /\ conditions.Get o' ArtifactUnavailableCondition = Some noArtifactCondition
     /\ conditions.Get o' ReadyCondition
        = Some (mkCondition ConditionFalse StorageOperationFailedReason
                  "Failed to create temporary working directory: mkdir /tmp: read-only file system"))
  /\ Reconcile (envOk "1.2.0") sampleKey
       (world (sampleState
                 (sampleChart 1 None true {[ ReadyCondition := readyTrue "1.2.0" ]}
                    (Some (sampleArtifact "1.2.0")))
                 [Path (sampleArtifact "1.2.0")]))
     = Returned
         (mkPass zeroResult None
            (Some (sampleChart 1 None true {[ ReadyCondition := readyTrue "1.2.0" ]}
                     (Some (sampleArtifact "1.2.0"))))
            (world (sampleState
                      (sampleChart 1 None true
                         {[ ReadyCondition := readyTrue "1.2.0" ]}
                         (Some (sampleArtifact "1.2.0")))
                      [Path (sampleArtifact "1.2.0")]))).
Proof.
  split.
  - destruct (Reconcile_ready_summary envNoWorkDir sampleKey
                (world (sampleState (sampleChart 1 None false ∅ None) []))
                (sampleChart 1 None false ∅ None) eq_refl) as [Hpass _].
    destruct (Hpass eq_refl eq_refl) as (p & o' & Hrun & Hobj & Hsum).
    exists p, o'. split; [exact Hrun|]. split; [exact Hobj|].
    split; [exact Hsum|]. exact (workdir_pass_conditions p o' Hrun Hobj).
  - destruct (Reconcile_ready_summary (envOk "1.2.0") sampleKey
                (world (sampleState
                          (sampleChart 1 None true
                             {[ ReadyCondition := readyTrue "1.2.0" ]}
                             (Some (sampleArtifact "1.2.0")))
                          [Path (sampleArtifact "1.2.0")]))
                (sampleChart 1 None true {[ ReadyCondition := readyTrue "1.2.0" ]}
                   (Some (sampleArtifact "1.2.0"))) eq_refl) as [_ Hsusp].
    exact (Hsusp eq_refl).
Defined.

(** C2 (as stated) fails on a suspended object: the pass returns before
    the deferred function is set up, so the ready condition is not
    recomputed. A suspended chart without conditions comes out of the
    pass with none of the tracked conditions true and without a ready
    condition. *)
Lemma Reconcile_suspended_no_summary :
  ~ (forall env req w p o',
       Reconcile env req w = Returned p -> passObj p = Some o' ->
       ReadySummarizes o').
Proof.
  intros H.
  pose (o := sampleChart 1 None true ∅ None).
  specialize (H (envOk "1.2.0") sampleKey (world (sampleState o [])) _ o
                eq_refl eq_refl).
  destruct H as (_ & _ & H).
  assert (Hready : conditions.IsTrue o ReadyCondition = true).
  { apply H. intros t _. reflexivity. }
  discriminate Hready.
Qed.

(** ** Deletion *)

Lemma reconcileDelete_spec (env : Env) (s : State) :
  IsZeroTime (DeletionTimestamp (obj s)) = false ->
  exists s',
    reconcileDelete env s = Returned ((zeroResult, removeAllErr env), s')
    /\ calls (storage (world s'))
       = (calls (storage (world s)) ++
          [OpRemoveAll
             (ArtifactDir (Kind (obj s)) (Namespace (obj s)) (Name (obj s)))])%list
    /\ match removeAllErr env with
       | Some e =>
           obj s' = obj s
           /\ files (storage (world s')) = files (storage (world s))
       | None =>
           obj s' = RemoveFinalizer SourceFinalizer
                      (withStatus (setStatusArtifact None) (obj s))
           /\ files (storage (world s'))
              = filter
                  (fun p => pathDir p <>
                            ArtifactDir (Kind (obj s)) (Namespace (obj s))
                              (Name (obj s)))
                  (files (storage (world s)))
       end.
Proof.
  intros Hdel. unfold reconcileDelete, garbageCollect, RemoveAll. run.
  rewrite Hdel. cbn [negb].
  destruct (removeAllErr env) as [e|]; run; eexists; split; try reflexivity.
  - repeat split; reflexivity.
  - repeat split; reflexivity.
Qed.

(** C3: in a pass that reaches the deletion branch (the object is
    fetched, not suspended, carries the finalizer and is marked for
    deletion), a failing teardown sweep makes the pass return that error
    (aggregated with the error of the status patch, if that fails too),
    with the finalizer, the advertised artifact and the store as they
    were; a successful sweep leaves no stored artifact in the directory
    of the object, clears the advertised artifact, and the finalizer is
    removed. The one call the pass makes on the store is the removal
    under the wildcard selector of the object. *)
Theorem Reconcile_delete (env : Env) (req : ObjectKey) (w : World)
    (o : HelmChart) :
  Get env w req = (Some o, None) ->
  Suspend (Spec o) = false ->
  newHelperErr env = None ->
  ContainsFinalizer o SourceFinalizer = true ->
  IsZeroTime (DeletionTimestamp o) = false ->
  exists p o',
    Reconcile env req w = Returned p
    /\ passObj p = Some o'
    /\ calls (storage (passWorld p))
       = (calls (storage w) ++
          [OpRemoveAll (ArtifactDir (Kind o) (Namespace o) (Name o))])%list
    /\ match removeAllErr env with
       | Some e =>
           passErr p = match patchErr env with
                       | Some pe => Some (Aggregate [e; pe])
                       | None => Some e
                       end
           /\ SourceFinalizer ∈ Finalizers o'
           /\ GetArtifact o' = GetArtifact o
           /\ files (storage (passWorld p)) = files (storage w)
       | None =>
           passErr p = match patchErr env with
                       | Some pe => Some (Aggregate [pe])
                       | None => None
                       end
           /\ (forall f, f ∈ files (storage (passWorld p)) ->
                 pathDir f <> ArtifactDir (Kind o) (Namespace o) (Name o))
           /\ GetArtifact o' = None
           /\ SourceFinalizer ∉ Finalizers o'
       end.
Proof.
  intros Hget Hs Hh Hfin Hdel. rewrite (Reconcile_fetched env req w o) by done.
  destruct (reconcileFetched_spec env (mkState o w))
    as (r & e & s1 & s' & Hbody & _ & ->).
  rewrite dispatch_delete in Hbody by done.
  destruct (reconcileDelete_spec env (mkState o w) Hdel)
    as (s1' & Hrd & Hcalls & Hcase).
  rewrite Hrd in Hbody. injection Hbody as <- <- <-.
  destruct (patchDeferred_spec env zeroResult (removeAllErr env) s1')
    as (s2 & -> & Hf & Ha & Hst & _).
  eexists _, _. split; [reflexivity|]. split; [reflexivity|].
  cbn [passErr passWorld]. rewrite Hf, Ha, Hst.
  split; [exact Hcalls|].
  destruct (removeAllErr env) as [e|]; destruct Hcase as [Hobj Hfiles].
  - rewrite Hobj, Hfiles. cbn [obj world storage]. 
    split; [by destruct (patchErr env)|]. split; [|done].
    by apply bool_decide_eq_true in Hfin.
  - rewrite Hobj, Hfiles. cbn [obj world storage].
    split; [by destruct (patchErr env)|].
    split; [|split; [reflexivity|]].
    + intros f Hf'. by apply list_elem_of_filter in Hf' as [? _].
    + cbn. intros Hin. by apply list_elem_of_filter in Hin as [? _].
Qed.

Lemma Reconcile_delete_witness :
  exists p o',
    Reconcile (envOk "1.2.0") sampleKey
      (world (sampleState
                (sampleChart 1 (Some 1700000000) false ∅
                   (Some (sampleArtifact "1.2.0")))
                [Path (sampleArtifact "1.1.0"); Path (sampleArtifact "1.2.0")]))
    = Returned p
    /\ passObj p = Some o'
    /\ calls (storage (passWorld p))
       = [OpRemoveAll (ArtifactDir "HelmChart" "default" "app")]
    /\ passErr p = None
    /\ (forall f, f ∈ files (storage (passWorld p)) ->
          pathDir f <> ArtifactDir "HelmChart" "default" "app")
    /\ GetArtifact o' = None
    /\ SourceFinalizer ∉ Finalizers o'.
Proof.
  exact (Reconcile_delete (envOk "1.2.0") sampleKey
           (world (sampleState
                     (sampleChart 1 (Some 1700000000) false ∅
                        (Some (sampleArtifact "1.2.0")))
                     [Path (sampleArtifact "1.1.0");
                      Path (sampleArtifact "1.2.0")]))
           (sampleChart 1 (Some 1700000000) false ∅
              (Some (sampleArtifact "1.2.0")))
           eq_refl eq_refl eq_refl eq_refl eq_refl).
Defined.

(** ** Garbage collection *)

(** C10: on an object that is not under deletion and advertises no
    artifact, [garbageCollect] returns nil and leaves the whole state as
    it was: no call reaches the storage, and the store, the status and
    the event stream are unchanged. *)
Theorem garbageCollect_without_artifact (env : Env) (s : State) :
  IsZeroTime (DeletionTimestamp (obj s)) = true ->
  GetArtifact (obj s) = None ->
  garbageCollect env s = Returned (None, s).
Proof.
  intros Hdel Hart. unfold garbageCollect. run.
  rewrite Hdel, Hart. reflexivity.
Qed.

Lemma garbageCollect_without_artifact_witness :
  garbageCollect (envOk "1.2.0") (sampleState (sampleChart 1 None false ∅ None) [])
  = Returned (None, sampleState (sampleChart 1 None false ∅ None) []).
Proof.
  apply garbageCollect_without_artifact; reflexivity.
Defined.

(** ** The storage stage *)

Lemma garbageCollect_retain (env : Env) (s : State) (a : Artifact) :
  IsZeroTime (DeletionTimestamp (obj s)) = true ->
  GetArtifact (obj s) = Some a ->
  exists s1,
    garbageCollect env s = Returned (removeAllButCurrentErr env, s1)
    /\ obj s1 = obj s
    /\ Hostname (storage (world s1)) = Hostname (storage (world s))
    /\ (Path a ∈ files (storage (world s1)) <-> Path a ∈ files (storage (world s)))
    /\ match removeAllButCurrentErr env with
       | Some e =>
           files (storage (world s1)) = files (storage (world s))
           /\ events (world s1)
              = (events (world s) ++
                 [mkEvent EventSeverityError "GarbageCollectionFailed"
                    ("Garbage collection of old artifacts failed: " +:+ Error e)
                    []])%list
       | None =>
           files (storage (world s1))
           = filter (fun p => pathDir p <> pathDir (Path a) \/ p = Path a)
               (files (storage (world s)))
       end.
Proof.
  intros Hdel Hart. unfold garbageCollect, RemoveAllButCurrent. run.
  rewrite Hdel, Hart. cbn [negb].
  destruct (removeAllButCurrentErr env) as [e|]; run; eexists;
    (split; [reflexivity|]); cbn [obj world storage files Hostname events].
  - done.
  - repeat split; try done.
    + intros H. by apply list_elem_of_filter in H as [_ ?].
    + intros H. apply list_elem_of_filter. split; [by right|done].
Qed.

Lemma reconcileStorage_spec (env : Env) (s : State) :
  IsZeroTime (DeletionTimestamp (obj s)) = true ->
  exists r s',
    reconcileStorage env s = Returned ((r, None), s')
    /\ match GetArtifact (obj s') with
       | None =>
           advertisedInStore s = false
           /\ conditions.Get (obj s') ArtifactUnavailableCondition
              = Some noArtifactCondition
           /\ r = mkResult true 0
       | Some a' =>
           advertisedInStore s = true
           /\ conditions.Get (obj s') ArtifactUnavailableCondition = None
           /\ ArtifactURL a'
              = mkURL (Hostname (storage (world s))) (pathString (Path a'))
           /\ urlHost (StatusURL (ObjStatus (obj s')))
              = Hostname (storage (world s))
           /\ r = mkResult false (GetRequeueAfter (obj s))
       end.
Proof.
  intros Hdel. unfold reconcileStorage, advertisedInStore.
  destruct (GetArtifact (obj s)) as [a|] eqn:Hart.
  - destruct (garbageCollect_retain env s a Hdel Hart)
      as (s1 & Hgc & Hobj & Hhost & Hin & _).
    run. rewrite Hgc. run. rewrite Hobj, Hart.
    unfold ArtifactExist.
    destruct (decide (Path a ∈ files (storage (world s)))) as [Hex|Hex].
    + rewrite (bool_decide_eq_true_2 _ (proj2 Hin Hex)).
      rewrite (bool_decide_eq_true_2 _ Hex). cbn [negb]. run.
      rewrite Hobj, Hart.
      eexists _, _. split; [reflexivity|]. cbn. rewrite Hhost, Hobj.
      unfold conditions.Get, GetConditions. cbn.
      by rewrite lookup_delete_eq.
    + rewrite (bool_decide_eq_false_2 _ (fun H => Hex (proj1 Hin H))).
      rewrite (bool_decide_eq_false_2 _ Hex). cbn [negb]. run.
      eexists _, _. split; [reflexivity|]. cbn.
      unfold conditions.Get, GetConditions. cbn.
      by rewrite lookup_insert_eq.
  - unfold garbageCollect. run. rewrite Hdel, Hart. cbn [negb]. run.
    rewrite Hart. run. rewrite Hart.
    eexists _, _. split; [reflexivity|]. cbn [obj].
    change (GetArtifact (conditions.MarkTrue _ _ _ (obj s)))
      with (GetArtifact (obj s)). rewrite Hart.
    unfold conditions.Get, GetConditions. cbn.
    by rewrite lookup_insert_eq.
Qed.

(** C6 (as amended): on an object that is not under deletion, the
    storage stage of a pass returns without an error. If no artifact is
    advertised when it is done (none was, or the advertised one was not
    in the store and was cleared), the artifact-unavailable condition is
    true and the stage asks for an immediate requeue; that result is not
    the zero result, so the pass goes on with the stages after the
    storage stage, from the state the storage stage left. If an artifact
    is advertised, the condition is cleared, the URL of the artifact and
    the host of the status URL are those of the store, the stage asks for
    a requeue after the interval of the object, and the pass goes on
    unless that interval is zero. *)
Theorem reconcile_storage_stage (env : Env) (s : State) :
  IsZeroTime (DeletionTimestamp (obj s)) = true ->
  exists r s',
    reconcileStorage env
      (mkState (conditions.MarkReconciling "Reconciling" "" (obj s)) (world s))
    = Returned ((r, None), s')
    /\ match GetArtifact (obj s') with
       | None =>
           advertisedInStore s = false
           /\ conditions.Get (obj s') ArtifactUnavailableCondition
              = Some noArtifactCondition
           /\ r = mkResult true 0
           /\ reconcile env s = reconcileAfterStorage env s'
       | Some a' =>
           advertisedInStore s = true
           /\ conditions.Get (obj s') ArtifactUnavailableCondition = None
           /\ ArtifactURL a'
              = mkURL (Hostname (storage (world s))) (pathString (Path a'))
           /\ urlHost (StatusURL (ObjStatus (obj s')))
              = Hostname (storage (world s))
           /\ r = mkResult false (GetRequeueAfter (obj s))
           /\ reconcile env s
              = if bool_decide (GetRequeueAfter (obj s) = 0)
                then Returned ((r, None), s')
                else reconcileAfterStorage env s'
       end.
Proof.
  intros Hdel.
  destruct (reconcileStorage_spec env
              (mkState (conditions.MarkReconciling "Reconciling" "" (obj s))
                 (world s)) Hdel) as (r & s' & Hstage & Hcase).
  exists r, s'. split; [exact Hstage|].
  assert (Hrec : reconcile env s
                 = if isErr None || IsZero r then Returned ((r, None), s')
                   else reconcileAfterStorage env s').
  { unfold reconcile. run. rewrite Hstage.
    by destruct (isErr None || IsZero r). }
  destruct (GetArtifact (obj s')) as [a'|].
  - destruct Hcase as (H1 & H2 & H3 & H4 & H5).
    split; [exact H1|]. split; [exact H2|]. split; [exact H3|].
    split; [exact H4|]. split; [exact H5|].
    rewrite Hrec. subst r. reflexivity.
  - destruct Hcase as (H1 & H2 & H3).
    split; [exact H1|]. split; [exact H2|]. split; [exact H3|].
    rewrite Hrec. subst r. reflexivity.
Qed.

(** C6 (as stated) fails: a pass over an object without an advertised
    artifact does not end with the storage stage. On the sample chart it
    goes on to build and publish the artifact. *)
Lemma reconcile_continues_without_artifact :
  ~ (forall env s,
       IsZeroTime (DeletionTimestamp (obj s)) = true ->
       GetArtifact (obj s) = None ->
       reconcile env s
       = reconcileStorage env
           (mkState (conditions.MarkReconciling "Reconciling" "" (obj s))
              (world s))).
Proof.
  intros H.
  specialize (H (envOk "1.2.0")
                (sampleState (sampleChart 1 None false ∅ None) [])
                eq_refl eq_refl).
  vm_compute in H. discriminate H.
Qed.

Lemma reconcile_storage_stage_witness :
  exists r s',
    reconcileStorage (envOk "1.2.0")
      (mkState (conditions.MarkReconciling "Reconciling" ""
                  (obj (sampleState (sampleChart 1 None false ∅ None) [])))
         (world (sampleState (sampleChart 1 None false ∅ None) [])))
    = Returned ((r, None), s')
    /\ match GetArtifact (obj s') with
       | None =>
           advertisedInStore (sampleState (sampleChart 1 None false ∅ None) [])
           = false
           /\ conditions.Get (obj s') ArtifactUnavailableCondition
              = Some noArtifactCondition
           /\ r = mkResult true 0
           /\ reconcile (envOk "1.2.0")
                (sampleState (sampleChart 1 None false ∅ None) [])
              = reconcileAfterStorage (envOk "1.2.0") s'
       | Some a' => True
       end.
Proof.
  destruct (reconcile_storage_stage (envOk "1.2.0")
              (sampleState (sampleChart 1 None false ∅ None) []) eq_refl)
    as (r & s' & Hstage & Hcase).
  exists r, s'. split; [exact Hstage|].
  destruct (GetArtifact (obj s')); [exact I|exact Hcase].
Defined.




(** ** The publish stage *)

Lemma restoreReady_spec (artifact : Artifact) (s : State) :
  exists s',
    restoreReady artifact s = Returned (tt, s')
    /\ world s' = world s
    /\ GetArtifact (obj s') = GetArtifact (obj s)
    /\ conditions.Get (obj s') ReadyCondition
       = (if HasRevision (GetArtifact (obj s)) (Revision artifact)
          then Some (readyTrue (Revision artifact))
          else conditions.Get (obj s) ReadyCondition)
    /\ (forall t, t <> ReadyCondition -> t <> ArtifactUnavailableCondition ->
          t <> ArtifactOutdatedCondition ->
          conditions.Get (obj s') t = conditions.Get (obj s) t).
Proof.
  unfold restoreReady. run.
  destruct (GetArtifact (obj s)) as [a|] eqn:Hart; run.
  - destruct (HasRevision (Some a) (Revision artifact)); run;
      eexists; (split; [reflexivity|]); cbn [obj world];
      (split; [reflexivity|]); (split; [exact Hart|]);
      unfold conditions.MarkTrue; split; try (intros t ? ? ?); by conds.
  - eexists; (split; [reflexivity|]). by rewrite Hart.
Qed.

Lemma publish_spec (env : Env) (artifact : Artifact) (path : string)
    (s : State) :
  exists r err built s1,
    publish env artifact path s = Returned ((r, err, built), s1)
    /\ Revision built = Revision artifact
    /\ GetConditions (obj s1) = GetConditions (obj s)
    /\ match err with
       | Some _ => obj s1 = obj s
       | None =>
           GetArtifact (obj s1) = Some built
           /\ Path built ∈ files (storage (world s1))
       end
    /\ (forall p, p ∈ locks (storage (world s1)) ->
          p ∈ locks (storage (world s)) /\
          (mkdirAllErr env = None -> lockErr env = None -> p <> Path artifact)).
Proof.
  unfold publish, publishLocked, MkdirAll, Lock, Unlock, CopyFromPath, Symlink.
  run.
  destruct (mkdirAllErr env) as [e1|]; run.
  { eexists _, _, _, _. split; [reflexivity|]. repeat split; done. }
  destruct (lockErr env) as [e2|]; run.
  { eexists _, _, _, _. split; [reflexivity|]. repeat split; done. }
  assert (Hlocks : forall p,
    p ∈ filter (fun p => p <> Path artifact)
          (Path artifact :: locks (storage (world s))) ->
    p ∈ locks (storage (world s))
    /\ (@None error = None -> @None error = None -> p <> Path artifact)).
  { intros p Hp. apply list_elem_of_filter in Hp as [Hne Hin].
    apply elem_of_cons in Hin as [->|Hin]; [done|]. done. }
  destruct (copyFromPath env) as [sum [e3|]]; run.
  { eexists _, _, _, _. split; [reflexivity|]. repeat split; try done;
      by apply Hlocks. }
  destruct (symlinkErr env) as [e4|]; run.
  - eexists _, _, _, _. split; [reflexivity|]. cbn.
    repeat split; try done; try by apply Hlocks.
    destruct (bool_decide (Path artifact ∈ files (storage (world s)))) eqn:Hin.
    + by apply bool_decide_eq_true in Hin.
    + apply elem_of_app. right. by left.
  - destruct (bool_decide (_ <> emptyURL)); run;
      eexists _, _, _, _; (split; [reflexivity|]); cbn;
      repeat split; try done; try (by apply Hlocks);
      (destruct (bool_decide (Path artifact ∈ files (storage (world s)))) eqn:Hin;
       [by apply bool_decide_eq_true in Hin | apply elem_of_app; right; by left]).
Qed.

(** C5 (as amended): the publish stage returns, and it leaves the ready
    condition true, with the reason of success and the revision of the
    built artifact in its message, exactly when the artifact advertised
    as the stage returns has the revision of the built one; otherwise the
    ready condition is as the stage found it. A publication that
    succeeded advertises the built artifact, so ready is then marked
    true; one that failed leaves the advertised artifact as it was, and
    ready is marked true all the same if that artifact already has the
    revision. *)
Theorem reconcileArtifact_ready (env : Env) (artifact : Artifact)
    (path : string) (s : State) :
  exists r err s',
    reconcileArtifact env artifact path s = Returned ((r, err), s')
    /\ conditions.Get (obj s') ReadyCondition
       = (if HasRevision (GetArtifact (obj s')) (Revision artifact)
          then Some (readyTrue (Revision artifact))
          else conditions.Get (obj s) ReadyCondition)
    /\ (err = None ->
        HasRevision (GetArtifact (obj s')) (Revision artifact) = true)
    /\ (isErr err = true -> GetArtifact (obj s') = GetArtifact (obj s)).
Proof.
  destruct (publish_spec env artifact path s)
    as (r & err & built & s1 & Hpub & Hrev & Hconds & Hcase & _).
  destruct (restoreReady_spec built s1) as (s' & Hrest & _ & Hart & Hready & _).
  exists r, err, s'. split.
  { unfold reconcileArtifact. run. rewrite Hpub. run. by rewrite Hrest. }
  rewrite Hart, Hready, Hrev.
  assert (Hget : conditions.Get (obj s1) ReadyCondition
                 = conditions.Get (obj s) ReadyCondition).
  { unfold conditions.Get. by rewrite Hconds. }
  rewrite Hget. split; [done|].
  destruct err as [e|].
  - split; [done|]. intros _. by rewrite Hcase.
  - destruct Hcase as [-> _]. split; [|done].
    intros _. cbn. rewrite Hrev. by apply bool_decide_eq_true.
Qed.

(** C5 (as stated) fails: the stage marks ready true although the
    publication failed. The copy fails on a chart that already advertises
    revision 1.2.0 and is rebuilt at that revision: the stage returns the
    error and the ready condition, which was not there, is true. *)
Lemma reconcileArtifact_ready_after_failed_copy :
  ~ (forall env artifact path s r err s',
       reconcileArtifact env artifact path s = Returned ((r, err), s') ->
       conditions.IsTrue (obj s) ReadyCondition = false ->
       conditions.IsTrue (obj s') ReadyCondition = true ->
       err = None).
Proof.
  intros H.
  specialize (H (envCopyFails "1.2.0") (sampleArtifact "1.2.0")
                "/tmp/default-app-1/chart-1.2.0.tgz"
                (sampleState staleChart [Path (sampleArtifact "1.2.0")])).
  vm_compute in H. specialize (H _ _ _ eq_refl eq_refl eq_refl).
  discriminate H.
Qed.

(** ** Change propagation *)

Lemma requestsFor_map (items : list HelmChart) :
  requestsFor items = map (fun hc => mkRequest (ObjectKeyFromObject hc)) items.
Proof.
  unfold requestsFor.
  assert (H : forall acc,
    fold_left (fun reqs i => (reqs ++ [mkRequest (ObjectKeyFromObject i)])%list)
      items acc
    = (acc ++ map (fun hc => mkRequest (ObjectKeyFromObject hc)) items)%list).
  { induction items as [|i items IH]; intros acc; cbn.
    - by rewrite app_nil_r.
    - rewrite IH. by rewrite <- app_assoc. }
  apply (H []).
Qed.

Lemma List_ok (env : Env) (w : World) (key : string) :
  listErr env = None ->
  List env w key = (filter (fun hc => indexKey hc = key) (cluster w), None).
Proof.
  intros Hok. unfold List. rewrite Hok. f_equal.
  apply list_filter_iff. intros hc. unfold indexedUnder. cbn.
  rewrite bool_decide_eq_true, list_elem_of_singleton. unfold indexKey.
  split; congruence.
Qed.

(** C8: when the accessor lists without an error, each of the three
    handlers, given a source of its kind, returns no request if the
    source has no artifact, and otherwise the requests for the charts
    indexed under the kind and name of the source, one for each chart
    and in the order of the list. *)
Theorem requests_for_source_change (env : Env) (w : World) (src : Source) :
  listErr env = None ->
  requestsForHelmRepositoryChange env w (HelmRepositoryObject src)
  = Returned (requestsExpected HelmRepositoryKind src w)
  /\ requestsForGitRepositoryChange env w (GitRepositoryObject src)
     = Returned (requestsExpected GitRepositoryKind src w)
  /\ requestsForBucketChange env w (BucketObject src)
     = Returned (requestsExpected BucketKind src w).
Proof.
  intros Hok.
  unfold requestsForHelmRepositoryChange, requestsForGitRepositoryChange,
    requestsForBucketChange, requestsExpected.
  destruct (SourceArtifact src); [|done].
  rewrite !List_ok by done. cbn [isErr]. by rewrite !requestsFor_map.
Qed.

Lemma requests_for_source_change_witness :
  requestsForHelmRepositoryChange (envOk "1.2.0") sampleCluster
    (HelmRepositoryObject sampleSource)
  = Returned [mkRequest (mkKey "default" "app")]
  /\ requestsForGitRepositoryChange (envOk "1.2.0") sampleCluster
       (GitRepositoryObject sampleSource)
     = Returned [mkRequest (mkKey "default" "from-git")]
  /\ requestsForBucketChange (envOk "1.2.0") sampleCluster
       (BucketObject sampleSource)
     = Returned [].
Proof.
  apply (requests_for_source_change (envOk "1.2.0") sampleCluster sampleSource).
  reflexivity.
Defined.

(** C9: when the accessor fails to list the dependent charts, each of
    the three handlers returns the empty list of requests: nothing is
    enqueued, and the handler has no error to return. *)
Theorem requests_dropped_when_list_fails (env : Env) (w : World)
    (src : Source) (e : error) :
  listErr env = Some e ->
  requestsForHelmRepositoryChange env w (HelmRepositoryObject src) = Returned []
  /\ requestsForGitRepositoryChange env w (GitRepositoryObject src) = Returned []
  /\ requestsForBucketChange env w (BucketObject src) = Returned [].
Proof.
  intros Herr.
  unfold requestsForHelmRepositoryChange, requestsForGitRepositoryChange,
    requestsForBucketChange, List.
  rewrite Herr. by destruct (SourceArtifact src).
Qed.

Lemma requests_dropped_when_list_fails_witness :
  requestsForHelmRepositoryChange envListFails sampleCluster
    (HelmRepositoryObject sampleSource) = Returned []
  /\ requestsForGitRepositoryChange envListFails sampleCluster
       (GitRepositoryObject sampleSource) = Returned []
  /\ requestsForBucketChange envListFails sampleCluster
       (BucketObject sampleSource) = Returned [].
Proof.
  apply (requests_dropped_when_list_fails envListFails sampleCluster
           sampleSource (errorString "context deadline exceeded")).
  reflexivity.
Defined.

(** ** Passes that go wrong *)

(** C4: a pass whose copy into the store fails. The chart is ready at
    revision 1.2.0 and the upstream chart is at 1.3.0. The pass returns
    the error of the copy, the advertised artifact is still the one of
    revision 1.2.0 and no lock is held; but the failure is only sent out
    as an event: none of the four tracked conditions is set, and the
    ready condition after the pass is true with the reason of success. *)
Theorem copy_failure_leaves_ready_true :
  exists p o',
    Reconcile (envCopyFails "1.3.0") sampleKey readyWorld = Returned p
    /\ passObj p = Some o'
    /\ passErr p = Some (errorString "write: no space left on device")
    /\ GetArtifact o'
       = Some (SetArtifactURL (storage readyWorld) (sampleArtifact "1.2.0"))
    /\ locks (storage (passWorld p)) = []
    /\ mkEvent EventSeverityError StorageOperationFailedReason
         "Failed to write Helm repository index to storage: write: no space left on device"
         [] ∈ events (passWorld p)
    /\ (forall t, t ∈ summarized -> conditions.Get o' t = None)
    /\ conditions.Get o' ReadyCondition = Some (readyTrue "1.2.0").
Proof.
  eexists _, _. split; [vm_compute; reflexivity|].
  split; [reflexivity|]. split; [reflexivity|]. split; [reflexivity|].
  split; [reflexivity|]. split.
  { cbn. apply elem_of_cons. right. by left. }
  split; [|reflexivity].
  intros t Ht. unfold summarized in Ht.
  rewrite !elem_of_cons, elem_of_nil in Ht.
  destruct Ht as [->|[->|[->|[->|[]]]]]; reflexivity.
Qed.

(** C1: a pass over a chart that is up to date. The chart advertises
    revision 1.2.0, the chart metadata is at 1.2.0 and the generation is
    observed, so [reconcileChart] skips the build; its result is not the
    zero result, and [reconcile] goes on to [reconcileArtifact] with the
    zero artifact and an empty path. When the copy of the empty path
    fails, the pass has created a directory and taken a lock in the
    store, returns the error and leaves the reconciling condition set;
    when the copy succeeds, the advertised artifact is replaced by one
    without a revision, for which the ready condition is set. *)
Theorem up_to_date_pass_reaches_publish :
  HasRevision (GetArtifact readyChart) "1.2.0" = true
  /\ Generation readyChart = ObservedGeneration (ObjStatus readyChart)
  /\ (exists p o',
        Reconcile envNoSourceFile sampleKey readyWorld = Returned p
        /\ passObj p = Some o'
        /\ passErr p = Some (errorString "open : no such file or directory")
        /\ calls (storage (passWorld p))
           = [OpRemoveAllButCurrent (Path (sampleArtifact "1.2.0"));
              OpMkdirAll (mkPath "" ""); OpLock (mkPath "" "");
              OpCopyFromPath (mkPath "" "") ""; OpUnlock (mkPath "" "")]
        /\ conditions.IsTrue o' ReconcilingCondition = true)
  /\ (exists p o',
        Reconcile (envOk "1.2.0") sampleKey readyWorld = Returned p
        /\ passObj p = Some o'
        /\ passErr p = None
        /\ GetArtifact o' = Some (mkArtifact (mkPath "" "") emptyURL "" "c0ffee")
        /\ mkPath "" "" ∈ files (storage (passWorld p))
        /\ conditions.Get o' ReadyCondition = Some (readyTrue "")).
Proof.
  split; [reflexivity|]. split; [reflexivity|]. split.
  - eexists _, _. split; [vm_compute; reflexivity|]. by repeat split.
  - eexists _, _. split; [vm_compute; reflexivity|].
    repeat split; try reflexivity.
    cbn. apply elem_of_cons. right. by left.
Qed.

(** * Further properties of the controller *)

(** ** The chart stage *)

(** X1: the chart stage returns and leaves the state as it found it: it
    marks no condition, makes no call on the store and emits no event,
    whichever step of the builder fails. With an error it returns the
    zero result and the artifact and chart path of the caller untouched;
    without one it asks for a requeue after the interval. *)
Theorem reconcileChart_frame (env : Env) (artifact : Artifact) (result : string)
    (s : State) :
  exists r err a p,
    reconcileChart env artifact result s = Returned ((r, err, a, p), s)
    /\ (isErr err = true -> r = zeroResult /\ a = artifact /\ p = result)
    /\ (err = None -> r = mkResult false (GetRequeueAfter (obj s))).
Proof.
  unfold reconcileChart.
  destruct (LoadMetadata env) as [chartMeta [e|]]; run.
  { by eexists _, _, _, _. }
  destruct (HasRevision _ _ && bool_decide _); run.
  { by eexists _, _, _, _. }
  destruct (if bool_decide (0 < length (GetValuesFiles (obj s)))%nat
            then MergeValuesFiles env else None) as [e|]; run.
  { by eexists _, _, _, _. }
  destruct (ChartSourceIsDir env) as [isChartDir err].
  destruct (if isErr err || isChartDir
            then match err with
                 | Some e => Some e
                 | None => (FetchMissingDependencies env).2
                 end
            else None) as [e|]; run.
  { by eexists _, _, _, _. }
  destruct (Build env) as [chartPath [e|]]; run; by eexists _, _, _, _.
Qed.

(** X2: when the metadata loads, the advertised artifact has the
    version of the chart as its revision and the generation is observed,
    the chart stage skips the build: it returns no error and a requeue
    after the interval, and hands back the artifact and chart path of
    the caller unassigned. *)
Theorem reconcileChart_up_to_date (env : Env) (artifact : Artifact)
    (result : string) (s : State) (a : Artifact) :
  snd (LoadMetadata env) = None ->
  GetArtifact (obj s) = Some a ->
  Revision a = MetaVersion (fst (LoadMetadata env)) ->
  Generation (obj s) = ObservedGeneration (ObjStatus (obj s)) ->
  reconcileChart env artifact result s
  = Returned ((mkResult false (GetRequeueAfter (obj s)), None, artifact, result), s).
Proof.
  intros Hmeta Hart Hrev Hgen. unfold reconcileChart.
  destruct (LoadMetadata env) as [chartMeta err]. cbn in Hmeta, Hrev. subst err.
  run. rewrite Hart. cbn [HasRevision].
  rewrite (bool_decide_eq_true_2 _ Hrev), (bool_decide_eq_true_2 _ Hgen).
  reflexivity.
Qed.

Lemma reconcileChart_up_to_date_witness :
  reconcileChart (envOk "1.2.0") zeroArtifact ""
    (sampleState readyChart [Path (sampleArtifact "1.2.0")])
  = Returned ((mkResult false 60, None, zeroArtifact, ""),
              sampleState readyChart [Path (sampleArtifact "1.2.0")]).
Proof.
  exact (reconcileChart_up_to_date (envOk "1.2.0") zeroArtifact ""
           (sampleState readyChart [Path (sampleArtifact "1.2.0")])
           (sampleArtifact "1.2.0") eq_refl eq_refl eq_refl eq_refl).
Defined.

(** X3: when the chart is not up to date and the builder succeeds, the
    chart stage returns the path of the built chart and a new artifact:
    its revision is the version of the chart, its file is
    [<name>-<version>.tgz] in the directory of the object, its URL is on
    the host of the store and it has no checksum yet. The values files
    are merged only if the object refers to some, and the dependencies
    are fetched only if the chart source is a directory. *)
Theorem reconcileChart_builds (env : Env) (artifact : Artifact)
    (result : string) (s : State) :
  snd (LoadMetadata env) = None ->
  HasRevision (GetArtifact (obj s)) (MetaVersion (fst (LoadMetadata env))) = false
  \/ Generation (obj s) <> ObservedGeneration (ObjStatus (obj s)) ->
  GetValuesFiles (obj s) = [] \/ MergeValuesFiles env = None ->
  ChartSourceIsDir env = (false, None)
  \/ (ChartSourceIsDir env = (true, None)
      /\ snd (FetchMissingDependencies env) = None) ->
  snd (Build env) = None ->
  exists built,
    reconcileChart env artifact result s
    = Returned ((mkResult false (GetRequeueAfter (obj s)), None, built,
                 fst (Build env)), s)
    /\ Revision built = MetaVersion (fst (LoadMetadata env))
    /\ Path built
       = mkPath (ArtifactDir (Kind (obj s)) (Namespace (obj s)) (Name (obj s)))
           (MetaName (fst (LoadMetadata env)) +:+ "-" +:+
            MetaVersion (fst (LoadMetadata env)) +:+ ".tgz")
    /\ urlHost (ArtifactURL built) = Hostname (storage (world s))
    /\ Checksum built = "".
Proof.
  intros Hmeta Hstale Hvalues Hdir Hbuild. unfold reconcileChart.
  destruct (LoadMetadata env) as [chartMeta err]. cbn in Hmeta, Hstale. subst err.
  run.
  assert (Hcond : HasRevision (GetArtifact (obj s)) (MetaVersion chartMeta)
                  && bool_decide (Generation (obj s)
                                  = ObservedGeneration (ObjStatus (obj s)))
                  = false).
  { destruct Hstale as [->|Hne]; [done|].
    rewrite (bool_decide_eq_false_2 _ Hne). apply andb_false_r. }
  rewrite Hcond.
  assert (Hmerge : (if bool_decide (0 < length (GetValuesFiles (obj s)))%nat
                    then MergeValuesFiles env else None) = None).
  { destruct Hvalues as [Hv|Hv]; rewrite Hv; [reflexivity|].
    destruct (bool_decide (0 < length (GetValuesFiles (obj s)))%nat); reflexivity. }
  rewrite Hmerge.
  destruct (Build env) as [chartPath berr]. cbn in Hbuild. subst berr.
  destruct Hdir as [->|[-> Hfetch]]; cbn [isErr orb]; rewrite ?Hfetch; run;
    eexists; (split; [reflexivity|]); done.
Qed.

Lemma reconcileChart_builds_witness :
  exists built,
    reconcileChart (envOk "1.3.0") zeroArtifact ""
      (sampleState readyChart [Path (sampleArtifact "1.2.0")])
    = Returned ((mkResult false 60, None, built,
                 "/tmp/default-app-1/chart-1.3.0.tgz"),
                sampleState readyChart [Path (sampleArtifact "1.2.0")])
    /\ Revision built = "1.3.0"
    /\ Path built = mkPath "HelmChart/default/app" "chart-1.3.0.tgz"
    /\ urlHost (ArtifactURL built) = "source-controller"
    /\ Checksum built = "".
Proof.
  exact (reconcileChart_builds (envOk "1.3.0") zeroArtifact ""
           (sampleState readyChart [Path (sampleArtifact "1.2.0")])
           eq_refl (or_introl eq_refl) (or_introl eq_refl)
           (or_introl eq_refl) eq_refl).
Defined.

(** ** The artifact stage *)

Lemma restoreReady_world (artifact : Artifact) (s : State) :
  exists o', restoreReady artifact s = Returned (tt, mkState o' (world s))
    /\ GetArtifact o' = GetArtifact (obj s)
    /\ StatusURL (ObjStatus o') = StatusURL (ObjStatus (obj s))
    /\ (is_Some (GetArtifact (obj s)) ->
        conditions.Get o' ArtifactUnavailableCondition = None)
    /\ (GetArtifact (obj s) = None ->
        conditions.Get o' ArtifactUnavailableCondition
        = conditions.Get (obj s) ArtifactUnavailableCondition)
    /\ conditions.Get o' ArtifactOutdatedCondition
       = (if HasRevision (GetArtifact (obj s)) (Revision artifact) then None
          else conditions.Get (obj s) ArtifactOutdatedCondition).
Proof.
  unfold restoreReady. run.
  destruct (GetArtifact (obj s)) as [a|] eqn:Hart; run.
  - destruct (HasRevision (Some a) (Revision artifact)); run.
    + eexists. split; [reflexivity|]. split; [exact Hart|].
      split; [reflexivity|]. unfold conditions.MarkTrue.
      split; [intros _; by conds|]. split; [intros H; discriminate H|].
      by conds.
    + eexists. split; [reflexivity|]. split; [exact Hart|].
      split; [reflexivity|].
      split; [intros _; by conds|]. split; [intros H; discriminate H|].
      by conds.
  - exists (obj s). split; [by destruct s|]. rewrite Hart.
    repeat split; try done.
Qed.

Lemma alias_not_empty (host dir : string) :
  mkURL host (dir +:+ "/" +:+ "latest.tar.gz") <> emptyURL.
Proof. intros [= _ H]. by destruct dir. Qed.

Lemma filter_unlock (p : ArtifactPath) (l : list ArtifactPath) :
  filter (fun q => q <> p) (p :: l) = filter (fun q => q <> p) l.
Proof. rewrite filter_cons_False; [done|]. intros H. by apply H. Qed.

Lemma reconcileArtifact_run (env : Env) (artifact : Artifact) (path : string)
    (s : State) :
  exists s',
    reconcileArtifact env artifact path s
    = Returned ((if isErr (publishError env) then zeroResult
                 else mkResult false (GetRequeueAfter (obj s)),
                 publishError env), s')
    /\ calls (storage (world s'))
       = (calls (storage (world s)) ++ publishCalls env (Path artifact) path)%list
    /\ locks (storage (world s'))
       = match mkdirAllErr env, lockErr env with
         | None, None =>
             filter (fun p => p <> Path artifact) (locks (storage (world s)))
         | _, _ => locks (storage (world s))
         end
    /\ events (world s') = (events (world s) ++ publishEvents env artifact)%list
    /\ GetArtifact (obj s')
       = match publishError env with
         | None =>
             Some (mkArtifact (Path artifact) (ArtifactURL artifact)
                     (Revision artifact) (fst (copyFromPath env)))
         | Some _ => GetArtifact (obj s)
         end
    /\ StatusURL (ObjStatus (obj s'))
       = match publishError env, symlinkErr env with
         | None, None =>
             mkURL (Hostname (storage (world s)))
               (pathDir (Path artifact) +:+ "/" +:+ "latest.tar.gz")
         | _, _ => StatusURL (ObjStatus (obj s))
         end.
Proof.
  unfold reconcileArtifact, publish, publishLocked, MkdirAll, Lock, Unlock,
    CopyFromPath, Symlink, publishCalls, publishError, publishEvents. run.
  destruct (mkdirAllErr env) as [e1|]; run.
  { match goal with |- context [restoreReady ?a ?st] =>
      destruct (restoreReady_world a st) as (o' & -> & Ha & Hu & _) end.
    eexists. split; [reflexivity|]. cbn [obj world storage calls locks events].
    rewrite Ha, Hu, app_nil_r. done. }
  destruct (lockErr env) as [e2|]; run.
  { match goal with |- context [restoreReady ?a ?st] =>
      destruct (restoreReady_world a st) as (o' & -> & Ha & Hu & _) end.
    eexists. split; [reflexivity|]. cbn [obj world storage calls locks events].
    rewrite Ha, Hu, app_nil_r, <- app_assoc. done. }
  destruct (copyFromPath env) as [sum [e3|]]; run.
  { match goal with |- context [restoreReady ?a ?st] =>
      destruct (restoreReady_world a st) as (o' & -> & Ha & Hu & _) end.
    eexists. split; [reflexivity|]. cbn [obj world storage calls locks events].
    rewrite Ha, Hu, filter_unlock, <- !app_assoc. done. }
  destruct (symlinkErr env) as [e4|]; run.
  - rewrite bool_decide_eq_false_2 by (intros H; by apply H). run.
    match goal with |- context [restoreReady ?a ?st] =>
      destruct (restoreReady_world a st) as (o' & -> & Ha & Hu & _) end.
    eexists. split; [reflexivity|]. cbn [obj world storage calls locks events].
    rewrite Ha, Hu, filter_unlock, <- !app_assoc. done.
  - rewrite bool_decide_eq_true_2 by apply alias_not_empty. run.
    match goal with |- context [restoreReady ?a ?st] =>
      destruct (restoreReady_world a st) as (o' & -> & Ha & Hu & _) end.
    eexists. split; [reflexivity|]. cbn [obj world storage calls locks events].
    rewrite Ha, Hu, filter_unlock, <- !app_assoc. done.
Qed.

Lemma filter_unlocked (p : ArtifactPath) (l : list ArtifactPath) :
  p ∉ l -> filter (fun q => q <> p) l = l.
Proof.
  induction l as [|q l IH]; [done|]. intros Hfree.
  apply not_elem_of_cons in Hfree as [Hne Hfree].
  rewrite filter_cons_True by done. by rewrite IH.
Qed.

(** X4: the artifact stage calls the store in the order [MkdirAll],
    [Lock], [CopyFromPath], [Symlink], unlock, and stops at the first of
    the first three that fails; the alias is refreshed only after a copy
    that succeeded, and the lock is released exactly when it was taken,
    whether the copy and the alias succeed or not. A path that was not
    locked before the stage is not locked after it. *)
Theorem reconcileArtifact_lock_protocol (env : Env) (artifact : Artifact)
    (path : string) (s : State) :
  exists r err s',
    reconcileArtifact env artifact path s = Returned ((r, err), s')
    /\ calls (storage (world s'))
       = (calls (storage (world s)) ++ publishCalls env (Path artifact) path)%list
    /\ locks (storage (world s'))
       = match mkdirAllErr env, lockErr env with
         | None, None =>
             filter (fun p => p <> Path artifact) (locks (storage (world s)))
         | _, _ => locks (storage (world s))
         end
    /\ (Path artifact ∉ locks (storage (world s)) ->
        locks (storage (world s')) = locks (storage (world s))).
Proof.
  destruct (reconcileArtifact_run env artifact path s)
    as (s' & Hrun & Hcalls & Hlocks & _).
  eexists _, _, s'. split; [exact Hrun|]. split; [exact Hcalls|].
  split; [exact Hlocks|]. intros Hfree. rewrite Hlocks.
  destruct (mkdirAllErr env), (lockErr env); try done.
  by apply filter_unlocked.
Qed.

(** X5: when the directory, the lock or the copy fails, the artifact
    stage returns the zero result and the error: wrapped in
    [failed to create artifact directory] for the directory, in
    [failed to acquire lock for artifact] for the lock, and as it is for
    the copy, for which alone an error event is emitted. The advertised
    artifact and the status URL are left as they were. *)
Theorem reconcileArtifact_failures (env : Env) (artifact : Artifact)
    (path : string) (s : State) (e : error) :
  mkdirAllErr env = Some e
  \/ (mkdirAllErr env = None /\ lockErr env = Some e)
  \/ (mkdirAllErr env = None /\ lockErr env = None
      /\ snd (copyFromPath env) = Some e) ->
  exists s',
    reconcileArtifact env artifact path s
    = Returned ((zeroResult,
                 match mkdirAllErr env, lockErr env with
                 | Some _, _ =>
                     Some (wrapError "failed to create artifact directory" e)
                 | None, Some _ =>
                     Some (wrapError "failed to acquire lock for artifact" e)
                 | None, None => Some e
                 end), s')
    /\ GetArtifact (obj s') = GetArtifact (obj s)
    /\ StatusURL (ObjStatus (obj s')) = StatusURL (ObjStatus (obj s))
    /\ events (world s')
       = (events (world s) ++
          match mkdirAllErr env, lockErr env with
          | None, None =>
              [mkEvent EventSeverityError StorageOperationFailedReason
                 ("Failed to write Helm repository index to storage: "
                  +:+ Error e) []]
          | _, _ => []
          end)%list.
Proof.
  intros Hfail.
  destruct (reconcileArtifact_run env artifact path s)
    as (s' & Hrun & _ & _ & Hev & Hart & Hurl).
  exists s'. unfold publishError, publishEvents in *.
  destruct (copyFromPath env) as [sum cerr]. cbn [snd fst] in *.
  destruct Hfail as [H1|[[H1 H2]|(H1 & H2 & H3)]];
    rewrite ?H1, ?H2, ?H3 in *; cbn [isErr] in Hrun; done.
Qed.

Lemma reconcileArtifact_failures_witness :
  exists s',
    reconcileArtifact (envCopyFails "1.3.0") (sampleArtifact "1.3.0")
      "/tmp/default-app-1/chart-1.3.0.tgz"
      (sampleState readyChart [Path (sampleArtifact "1.2.0")])
    = Returned ((zeroResult,
                 Some (errorString "write: no space left on device")), s')
    /\ GetArtifact (obj s') = Some (sampleArtifact "1.2.0")
    /\ StatusURL (ObjStatus (obj s')) = emptyURL
    /\ events (world s')
       = [mkEvent EventSeverityError StorageOperationFailedReason
            "Failed to write Helm repository index to storage: write: no space left on device"
            []].
Proof.
  exact (reconcileArtifact_failures (envCopyFails "1.3.0")
           (sampleArtifact "1.3.0") "/tmp/default-app-1/chart-1.3.0.tgz"
           (sampleState readyChart [Path (sampleArtifact "1.2.0")])
           (errorString "write: no space left on device")
           (or_intror (or_intror (conj eq_refl (conj eq_refl eq_refl))))).
Defined.

(** X6: when the directory, the lock and the copy succeed, the artifact
    stage returns no error and a requeue after the interval, whether the
    alias can be refreshed or not. The artifact is advertised with the
    checksum of the copy and a [NewArtifact] event carries its revision
    and checksum. If the alias is refreshed its URL becomes the status
    URL; if not, an error event is emitted and the status URL is left as
    it was. *)
Theorem reconcileArtifact_alias_best_effort (env : Env) (artifact : Artifact)
    (path : string) (s : State) :
  mkdirAllErr env = None ->
  lockErr env = None ->
  snd (copyFromPath env) = None ->
  exists s',
    reconcileArtifact env artifact path s
    = Returned ((mkResult false (GetRequeueAfter (obj s)), None), s')
    /\ GetArtifact (obj s')
       = Some (mkArtifact (Path artifact) (ArtifactURL artifact)
                 (Revision artifact) (fst (copyFromPath env)))
    /\ StatusURL (ObjStatus (obj s'))
       = match symlinkErr env with
         | None =>
             mkURL (Hostname (storage (world s)))
               (pathDir (Path artifact) +:+ "/" +:+ "latest.tar.gz")
         | Some _ => StatusURL (ObjStatus (obj s))
         end
    /\ events (world s')
       = (events (world s) ++
          mkEvent EventSeverityInfo "NewArtifact"
            ("Stored artifact for revision '" +:+ Revision artifact +:+ "'")
            [("revision", Revision artifact);
             ("checksum", fst (copyFromPath env))]
          :: match symlinkErr env with
             | Some e =>
                 [mkEvent EventSeverityError StorageOperationFailedReason
                    ("Failed to update status URL symlink: " +:+ Error e) []]
             | None => []
             end)%list.
Proof.
  intros H1 H2 H3.
  destruct (reconcileArtifact_run env artifact path s)
    as (s' & Hrun & _ & _ & Hev & Hart & Hurl).
  exists s'. unfold publishError, publishEvents in *.
  destruct (copyFromPath env) as [sum cerr]. cbn [snd fst] in *.
  rewrite H1, H2, H3 in *. cbn [isErr] in Hrun.
  split; [exact Hrun|]. split; [exact Hart|]. split; [|exact Hev].
  rewrite Hurl. by destruct (symlinkErr env).
Qed.

Lemma reconcileArtifact_alias_best_effort_witness :
  exists s',
    reconcileArtifact envAliasFails (sampleArtifact "1.3.0")
      "/tmp/default-app-1/chart-1.3.0.tgz"
      (sampleState readyChart [Path (sampleArtifact "1.2.0")])
    = Returned ((mkResult false 60, None), s')
    /\ GetArtifact (obj s') = Some (sampleArtifact "1.3.0")
    /\ StatusURL (ObjStatus (obj s')) = emptyURL
    /\ events (world s')
       = [mkEvent EventSeverityInfo "NewArtifact"
            "Stored artifact for revision '1.3.0'"
            [("revision", "1.3.0"); ("checksum", "c0ffee")];
          mkEvent EventSeverityError StorageOperationFailedReason
            "Failed to update status URL symlink: symlink: file exists" []].
Proof.
  exact (reconcileArtifact_alias_best_effort envAliasFails
           (sampleArtifact "1.3.0") "/tmp/default-app-1/chart-1.3.0.tgz"
           (sampleState readyChart [Path (sampleArtifact "1.2.0")])
           eq_refl eq_refl eq_refl).
Defined.

(** X7: when the artifact stage returns, the artifact-unavailable
    condition is cleared if an artifact is advertised, the
    artifact-outdated condition is cleared if the advertised artifact
    has the revision of the built one, and every condition other than
    these two and the ready condition is as the stage found it. *)
Theorem reconcileArtifact_conditions (env : Env) (artifact : Artifact)
    (path : string) (s : State) :
  exists r err s',
    reconcileArtifact env artifact path s = Returned ((r, err), s')
    /\ (is_Some (GetArtifact (obj s')) ->
        conditions.Get (obj s') ArtifactUnavailableCondition = None)
    /\ (HasRevision (GetArtifact (obj s')) (Revision artifact) = true ->
        conditions.Get (obj s') ArtifactOutdatedCondition = None)
    /\ (forall t,
          t <> ReadyCondition -> t <> ArtifactUnavailableCondition ->
          t <> ArtifactOutdatedCondition ->
          conditions.Get (obj s') t = conditions.Get (obj s) t).
Proof.
  destruct (publish_spec env artifact path s)
    as (r & err & built & s1 & Hpub & Hrev & Hconds & _).
  destruct (restoreReady_spec built s1) as (s' & Hrest & _ & Hart & _ & Hframe).
  destruct (restoreReady_world built s1)
    as (o' & Hrest' & _ & _ & Hunav & _ & Hout).
  rewrite Hrest in Hrest'. injection Hrest' as ->.
  exists r, err, (mkState o' (world s1)). split.
  { unfold reconcileArtifact. run. rewrite Hpub. run. by rewrite Hrest. }
  cbn [obj] in *. rewrite Hart, <- Hrev. split; [exact Hunav|]. split.
  - intros Hhas. rewrite Hout. by rewrite Hhas.
  - intros t H1 H2 H3. rewrite Hframe by done.
    unfold conditions.Get. by rewrite Hconds.
Qed.

(** ** What a pass keeps and records *)

Lemma sameDesired_refl (o : HelmChart) : sameDesired o o.
Proof. by repeat split. Qed.

Lemma sameDesired_trans (o1 o2 o3 : HelmChart) :
  sameDesired o1 o2 -> sameDesired o2 o3 -> sameDesired o1 o3.
Proof.
  unfold sameDesired. intros (?&?&?&?&?&?&?) (?&?&?&?&?&?&?).
  repeat split; congruence.
Qed.

Lemma keeps_ret {A : Type} (a : A) : keepsDesired (ret a).
Proof. intros s. exists a, s. split; [done|apply sameDesired_refl]. Qed.

Lemma keeps_bind {A B : Type} (m : M A) (k : A -> M B) :
  keepsDesired m -> (forall a, keepsDesired (k a)) -> keepsDesired (bind m k).
Proof.
  intros Hm Hk s. unfold bind.
  destruct (Hm s) as (a & s1 & -> & H1).
  destruct (Hk a s1) as (b & s2 & -> & H2).
  exists b, s2. split; [done|]. by eapply sameDesired_trans.
Qed.

Lemma keeps_getObj : keepsDesired getObj.
Proof. intros s. eexists _, _. split; [done|apply sameDesired_refl]. Qed.

Lemma keeps_getStorage : keepsDesired getStorage.
Proof. intros s. eexists _, _. split; [done|apply sameDesired_refl]. Qed.

Lemma keeps_modifyObj (f : HelmChart -> HelmChart) :
  (forall o, sameDesired o (f o)) -> keepsDesired (modifyObj f).
Proof. intros Hf s. eexists _, _. split; [done|apply Hf]. Qed.

Lemma keeps_modifyStorage (f : Storage -> Storage) :
  keepsDesired (modifyStorage f).
Proof. intros s. eexists _, _. split; [done|apply sameDesired_refl]. Qed.

Lemma keeps_modifyCluster (f : list HelmChart -> list HelmChart) :
  keepsDesired (modifyCluster f).
Proof. intros s. eexists _, _. split; [done|apply sameDesired_refl]. Qed.

Lemma keeps_EventWithMetaf (meta : list (string * string))
    (severity reason message : string) :
  keepsDesired (EventWithMetaf meta severity reason message).
Proof. intros s. eexists _, _. split; [done|apply sameDesired_refl]. Qed.

Lemma sameDesired_withStatus (f : HelmChartStatus -> HelmChartStatus)
    (o : HelmChart) : sameDesired o (withStatus f o).
Proof. by repeat split. Qed.

Lemma sameDesired_withFinalizers (f : list string -> list string)
    (o : HelmChart) : sameDesired o (withFinalizers f o).
Proof. by repeat split. Qed.

Lemma sameDesired_SetSummary (target : string) (l n : list string)
    (o : HelmChart) :
  sameDesired o (conditions.SetSummary target l n o).
Proof.
  destruct (SetSummary_frame target l n o) as [conds ->].
  apply sameDesired_withStatus.
Qed.

Ltac keeps_step :=
  match goal with
  | |- keepsDesired (bind _ _) => apply keeps_bind; [|intros ?]
  | |- keepsDesired (ret _) => apply keeps_ret
  | |- keepsDesired getObj => apply keeps_getObj
  | |- keepsDesired getStorage => apply keeps_getStorage
  | |- keepsDesired (modifyObj (conditions.SetSummary _ _ _)) =>
      apply keeps_modifyObj; intros ?; apply sameDesired_SetSummary
  | |- keepsDesired (modifyObj _) =>
      apply keeps_modifyObj; intros ?;
      first [ apply sameDesired_withStatus
            | apply sameDesired_withFinalizers
            | by repeat split ]
  | |- keepsDesired (modifyStorage _) => apply keeps_modifyStorage
  | |- keepsDesired (modifyCluster _) => apply keeps_modifyCluster
  | |- keepsDesired (EventWithMetaf _ _ _ _) => apply keeps_EventWithMetaf
  | |- keepsDesired (match ?x with _ => _ end) => destruct x
  | |- keepsDesired (let '(_, _) := ?x in _) => destruct x
  end.

Ltac keeps_auto := repeat keeps_step.

Lemma keeps_garbageCollect (env : Env) : keepsDesired (garbageCollect env).
Proof.
  unfold garbageCollect, RemoveAll, RemoveAllButCurrent, Eventf, logCall,
    modifyFiles. keeps_auto.
Qed.

Lemma keeps_reconcileDelete (env : Env) : keepsDesired (reconcileDelete env).
Proof.
  unfold reconcileDelete. apply keeps_bind; [apply keeps_garbageCollect|].
  intros ?. keeps_auto.
Qed.

Lemma keeps_reconcileStorage (env : Env) : keepsDesired (reconcileStorage env).
Proof.
  unfold reconcileStorage. apply keeps_bind; [apply keeps_garbageCollect|].
  intros ?. keeps_auto.
Qed.

Lemma keeps_reconcileArtifact (env : Env) (a : Artifact) (path : string) :
  keepsDesired (reconcileArtifact env a path).
Proof.
  unfold reconcileArtifact, publish, restoreReady, publishLocked, MkdirAll,
    Lock, Unlock, CopyFromPath, Symlink, Eventf, logCall, modifyFiles,
    modifyLocks.
  keeps_auto.
Qed.

Lemma keeps_reconcileAfterStorage (env : Env) :
  keepsDesired (reconcileAfterStorage env).
Proof.
  unfold reconcileAfterStorage, reconcileSource, reconcileChart, Eventf.
  keeps_auto; apply keeps_reconcileArtifact.
Qed.

Lemma keeps_reconcile (env : Env) : keepsDesired (reconcile env).
Proof.
  unfold reconcile. apply keeps_bind; [keeps_auto|]. intros ?.
  apply keeps_bind; [apply keeps_reconcileStorage|]. intros [? ?].
  keeps_auto. apply keeps_reconcileAfterStorage.
Qed.

Lemma keeps_dispatch (env : Env) : keepsDesired (dispatch env).
Proof.
  unfold dispatch. apply keeps_bind; [apply keeps_getObj|]. intros o.
  destruct (negb (ContainsFinalizer o SourceFinalizer)).
  - apply keeps_bind; [|intros ?; apply keeps_ret].
    apply keeps_modifyObj. intros o'. unfold AddFinalizer.
    destruct (ContainsFinalizer o' SourceFinalizer);
      [apply sameDesired_refl | apply sameDesired_withFinalizers].
  - destruct (negb (IsZeroTime (DeletionTimestamp o)));
      [apply keeps_reconcileDelete | apply keeps_reconcile].
Qed.

Lemma settled_iff (result : Result) :
  IsZero result || negb (Requeue result) = negb (Requeue result).
Proof.
  unfold IsZero. destruct (Requeue result); cbn; [reflexivity|].
  apply orb_true_r.
Qed.

Lemma patchDeferred_bookkeeping (env : Env) (result : Result)
    (retErr : option error) (s : State) :
  exists s',
    patchDeferred env result retErr s
    = Returned ((result,
                 match patchErr env with
                 | Some e => NewAggregate [retErr; Some e]
                 | None => retErr
                 end), s')
    /\ sameDesired (obj s) (obj s')
    /\ LastHandledReconcileAt (ObjStatus (obj s'))
       = match Annotations (obj s) !! ReconcileRequestAnnotation with
         | Some v => v
         | None => LastHandledReconcileAt (ObjStatus (obj s))
         end
    /\ (if negb (isErr retErr) && negb (Requeue result) then
          ObservedGeneration (ObjStatus (obj s')) = Generation (obj s)
          /\ conditions.Get (obj s') ReconcilingCondition = None
          /\ StalledMirrorsReady (obj s')
        else
          ObservedGeneration (ObjStatus (obj s'))
          = ObservedGeneration (ObjStatus (obj s))
          /\ conditions.Get (obj s') ReconcilingCondition
             = conditions.Get (obj s) ReconcilingCondition
          /\ conditions.Get (obj s') StalledCondition
             = conditions.Get (obj s) StalledCondition).
Proof.
  unfold patchDeferred. run. rewrite settled_iff.
  set (o1 := match Annotations (obj s) !! ReconcileRequestAnnotation with
             | Some v => withStatus (SetLastHandledReconcileRequest v) (obj s)
             | None => obj s
             end).
  assert (H1 : sameDesired (obj s) o1
               /\ ObservedGeneration (ObjStatus o1)
                  = ObservedGeneration (ObjStatus (obj s))
               /\ LastHandledReconcileAt (ObjStatus o1)
                  = match Annotations (obj s) !! ReconcileRequestAnnotation with
                    | Some v => v
                    | None => LastHandledReconcileAt (ObjStatus (obj s))
                    end
               /\ forall t, conditions.Get o1 t = conditions.Get (obj s) t).
  { subst o1. destruct (Annotations (obj s) !! _);
      (split; [by repeat split|done]). }
  destruct H1 as (Hsame1 & Hobs1 & Hlast1 & Hget1).
  pose proof (SetSummary_derived o1) as Hder.
  pose proof (SetSummary_Get ReadyCondition summarized summarized o1) as Hsum.
  destruct (SetSummary_frame ReadyCondition summarized summarized o1)
    as [conds Hframe].
  set (o2 := conditions.SetSummary ReadyCondition summarized summarized o1) in *.
  destruct (ReadinessDerived_ready _ Hder) as [c Hc].
  assert (Hsame2 : sameDesired (obj s) o2).
  { eapply sameDesired_trans; [exact Hsame1|]. rewrite Hframe.
    apply sameDesired_withStatus. }
  assert (Hobs2 : ObservedGeneration (ObjStatus o2)
                  = ObservedGeneration (ObjStatus (obj s))).
  { rewrite Hframe. exact Hobs1. }
  assert (Hlast2 : LastHandledReconcileAt (ObjStatus o2)
                   = LastHandledReconcileAt (ObjStatus o1)).
  { by rewrite Hframe. }
  assert (Hgen2 : Generation o2 = Generation (obj s)) by apply Hsame2.
  destruct (negb (isErr retErr) && negb (Requeue result)); cbn [obj world].
  - conds. rewrite Hc.
    assert (Hfin : forall o3,
      sameDesired o2 o3 ->
      LastHandledReconcileAt (ObjStatus o3) = LastHandledReconcileAt (ObjStatus o2) ->
      conditions.Get o3 ReconcilingCondition = None ->
      StalledMirrorsReady o3 ->
      exists s',
        match Patch env true (mkState o3 (world s)) with
        | Returned (a2, s'1) =>
            Returned (result,
              match a2 with
              | Some e => NewAggregate [retErr; Some e]
              | None => retErr
              end, s'1)
        | Panicked msg => Panicked msg
        end
        = Returned (result,
            match patchErr env with
            | Some e => NewAggregate [retErr; Some e]
            | None => retErr
            end, s')
        /\ sameDesired (obj s) (obj s')
        /\ LastHandledReconcileAt (ObjStatus (obj s'))
           = match Annotations (obj s) !! ReconcileRequestAnnotation with
             | Some v => v
             | None => LastHandledReconcileAt (ObjStatus (obj s))
             end
        /\ ObservedGeneration (ObjStatus (obj s')) = Generation (obj s)
        /\ conditions.Get (obj s') ReconcilingCondition = None
        /\ StalledMirrorsReady (obj s')).
    { intros o3 Hs3 Hl3 Hr3 Hm3. unfold Patch. run.
      assert (Hg3 : Generation o3 = Generation (obj s)).
      { destruct Hs3 as (_&_&_&->&_). exact Hgen2. }
      assert (Hs : sameDesired (obj s)
                     (withStatus (setObservedGeneration (Generation o3)) o3)).
      { eapply sameDesired_trans; [exact Hsame2|].
        eapply sameDesired_trans; [exact Hs3|]. apply sameDesired_withStatus. }
      destruct (patchErr env); run; eexists; (split; [reflexivity|]);
        cbn [obj]; (split; [exact Hs|]);
        (split; [cbn; by rewrite Hl3, Hlast2|]);
        (split; [exact Hg3|]); (split; [exact Hr3|exact Hm3]). }
    destruct (Status c) eqn:Hst; run; unfold panic.
    + apply Hfin.
      * rewrite Hframe. by repeat split.
      * by rewrite Hframe.
      * by conds.
      * unfold StalledMirrorsReady. conds. rewrite Hc, Hst. by conds.
    + apply Hfin.
      * rewrite Hframe. by repeat split.
      * by rewrite Hframe.
      * unfold conditions.MarkStalled, conditions.MarkTrue. by conds.
      * unfold StalledMirrorsReady, conditions.MarkStalled, conditions.MarkTrue.
        conds. rewrite Hc, Hst. by conds.
    + apply Hfin.
      * rewrite Hframe. by repeat split.
      * by rewrite Hframe.
      * by conds.
      * unfold StalledMirrorsReady. conds. by rewrite Hc, Hst.
  - unfold Patch. run.
    destruct (patchErr env); run; eexists; (split; [reflexivity|]);
      cbn [obj]; (split; [exact Hsame2|]);
      (split; [by rewrite Hlast2|]); (split; [exact Hobs2|]);
      subst o2; rewrite !Hsum by done; by rewrite !Hget1.
Qed.

(** The run of a fetched pass, with what the body and the deferred
    function keep. *)
Lemma reconcileFetched_run (env : Env) (s : State) :
  exists r e s1 s',
    dispatch env s = Returned ((r, e), s1)
    /\ sameDesired (obj s) (obj s1)
    /\ patchDeferred env r e s1
       = Returned ((r, match patchErr env with
                       | Some pe => NewAggregate [e; Some pe]
                       | None => e
                       end), s')
    /\ reconcileFetched env s = patchDeferred env r e s1.
Proof.
  destruct (keeps_dispatch env s) as ([r e] & s1 & Hbody & Hsame).
  destruct (patchDeferred_spec env r e s1) as (s' & Hpatch & _).
  exists r, e, s1, s'. repeat split; try done; try apply Hsame.
  unfold reconcileFetched. run. by rewrite Hbody.
Qed.

(** X8: a pass over an object that was fetched returns, and leaves the
    kind, namespace, name, generation, deletion timestamp, annotations
    and spec of the object as they were: it writes to the status and the
    finalizers only. *)
Theorem Reconcile_keeps_desired (env : Env) (req : ObjectKey) (w : World)
    (o : HelmChart) :
  Get env w req = (Some o, None) ->
  exists p o',
    Reconcile env req w = Returned p
    /\ passObj p = Some o'
    /\ Kind o' = Kind o /\ Namespace o' = Namespace o /\ Name o' = Name o
    /\ Generation o' = Generation o
    /\ DeletionTimestamp o' = DeletionTimestamp o
    /\ Annotations o' = Annotations o
    /\ Spec o' = Spec o.
Proof.
  intros Hget. unfold Reconcile. rewrite Hget.
  destruct (Suspend (Spec o)); [by eexists _, _|].
  destruct (newHelperErr env); [by eexists _, _|].
  destruct (reconcileFetched_run env (mkState o w))
    as (r & e & s1 & s' & _ & Hsame1 & Hpatch & ->).
  destruct (patchDeferred_bookkeeping env r e s1) as (s2 & Hrun & Hsame2 & _).
  rewrite Hrun. eexists _, _. split; [reflexivity|]. split; [reflexivity|].
  apply (sameDesired_trans _ _ _ Hsame1 Hsame2).
Qed.

Lemma Reconcile_keeps_desired_witness :
  exists p o',
    Reconcile (envOk "1.3.0") sampleKey readyWorld = Returned p
    /\ passObj p = Some o'
    /\ Kind o' = "HelmChart" /\ Namespace o' = "default" /\ Name o' = "app"
    /\ Generation o' = 1
    /\ DeletionTimestamp o' = None
    /\ Annotations o' = ∅
    /\ Spec o' = Spec readyChart.
Proof.
  exact (Reconcile_keeps_desired (envOk "1.3.0") sampleKey readyWorld
           readyChart eq_refl).
Defined.

(** X9: in a pass over an object without the finalizer, not suspended,
    the body only adds the finalizer at the end of the list and asks
    for an immediate requeue, also when the object is marked for
    deletion: the store and the events are untouched. The deferred
    function runs all the same: it records the reconcile request of the
    annotations, if any, recomputes the ready condition as the summary
    of the tracked conditions, and patches the object, which replaces
    it in the cluster unless the patch fails. As a requeue is asked
    for, the observed generation and the conditions other than ready
    are as they were, and so are the spec, the metadata other than the
    finalizers, the advertised artifact and the URL. The only error the
    pass can return is that of the patch. *)
Theorem Reconcile_adds_finalizer_first (env : Env) (req : ObjectKey)
    (w : World) (o : HelmChart) :
  Get env w req = (Some o, None) ->
  Suspend (Spec o) = false ->
  newHelperErr env = None ->
  ContainsFinalizer o SourceFinalizer = false ->
  exists p o',
    Reconcile env req w = Returned p
    /\ passObj p = Some o'
    /\ passResult p = mkResult true 0
    /\ passErr p = match patchErr env with
                   | Some pe => Some (Aggregate [pe])
                   | None => None
                   end
    /\ Finalizers o' = (Finalizers o ++ [SourceFinalizer])%list
    /\ sameDesired o o'
    /\ GetArtifact o' = GetArtifact o
    /\ StatusURL (ObjStatus o') = StatusURL (ObjStatus o)
    /\ ObservedGeneration (ObjStatus o') = ObservedGeneration (ObjStatus o)
    /\ (forall t, t <> ReadyCondition ->
          conditions.Get o' t = conditions.Get o t)
    /\ ReadySummarizes o'
    /\ LastHandledReconcileAt (ObjStatus o')
       = match Annotations o !! ReconcileRequestAnnotation with
         | Some v => v
         | None => LastHandledReconcileAt (ObjStatus o)
         end
    /\ storage (passWorld p) = storage w
    /\ events (passWorld p) = events w
    /\ cluster (passWorld p)
       = match patchErr env with
         | Some _ => cluster w
         | None => map (fun c => if sameObject c o' then o' else c) (cluster w)
         end.
Proof.
  intros Hget Hs Hh Hfin. rewrite (Reconcile_fetched env req w o) by done.
  unfold reconcileFetched, dispatch. run. rewrite Hfin. cbn [negb]. run.
  unfold patchDeferred, Patch. run.
  cbn [isErr IsZero Requeue negb andb orb]. run.
  unfold AddFinalizer. rewrite Hfin.
  set (o1 := withFinalizers (fun fs => (fs ++ [SourceFinalizer])%list) o).
  set (oa := match Annotations o1 !! ReconcileRequestAnnotation with
             | Some v => withStatus (SetLastHandledReconcileRequest v) o1
             | None => o1
             end).
  assert (Ha : Finalizers oa = (Finalizers o ++ [SourceFinalizer])%list
               /\ sameDesired o oa
               /\ GetArtifact oa = GetArtifact o
               /\ StatusURL (ObjStatus oa) = StatusURL (ObjStatus o)
               /\ ObservedGeneration (ObjStatus oa)
                  = ObservedGeneration (ObjStatus o)
               /\ (forall t, conditions.Get oa t = conditions.Get o t)
               /\ LastHandledReconcileAt (ObjStatus oa)
                  = match Annotations o !! ReconcileRequestAnnotation with
                    | Some v => v
                    | None => LastHandledReconcileAt (ObjStatus o)
                    end).
  { subst oa o1. cbn [withFinalizers Annotations].
    destruct (Annotations o !! ReconcileRequestAnnotation);
      by repeat split. }
  destruct Ha as (Hf & Hsame & Hart & Hurl & Hobs & Hget' & Hlast).
  pose proof (SetSummary_derived oa) as Hder.
  pose proof (SetSummary_Get ReadyCondition summarized summarized oa) as Hsum.
  destruct (SetSummary_frame ReadyCondition summarized summarized oa)
    as [conds Hframe].
  set (o2 := conditions.SetSummary ReadyCondition summarized summarized oa) in *.
  assert (H2 : Finalizers o2 = Finalizers oa
               /\ sameDesired oa o2
               /\ GetArtifact o2 = GetArtifact oa
               /\ StatusURL (ObjStatus o2) = StatusURL (ObjStatus oa)
               /\ ObservedGeneration (ObjStatus o2)
                  = ObservedGeneration (ObjStatus oa)
               /\ LastHandledReconcileAt (ObjStatus o2)
                  = LastHandledReconcileAt (ObjStatus oa)).
  { rewrite Hframe. by repeat split. }
  destruct H2 as (Hf2 & Hsame2 & Hart2 & Hurl2 & Hobs2 & Hlast2).
  assert (Hall : Finalizers o2 = (Finalizers o ++ [SourceFinalizer])%list
    /\ sameDesired o o2
    /\ GetArtifact o2 = GetArtifact o
    /\ StatusURL (ObjStatus o2) = StatusURL (ObjStatus o)
    /\ ObservedGeneration (ObjStatus o2) = ObservedGeneration (ObjStatus o)
    /\ (forall t, t <> ReadyCondition ->
          conditions.Get o2 t = conditions.Get o t)
    /\ ReadySummarizes o2
    /\ LastHandledReconcileAt (ObjStatus o2)
       = match Annotations o !! ReconcileRequestAnnotation with
         | Some v => v
         | None => LastHandledReconcileAt (ObjStatus o)
         end).
  { split; [congruence|]. split; [by eapply sameDesired_trans|].
    split; [congruence|]. split; [congruence|]. split; [congruence|].
    split; [intros t Ht; rewrite Hsum by done; apply Hget'|].
    split; [by apply ReadinessDerived_claim|congruence]. }
  destruct Hall as (A1 & A2 & A3 & A4 & A5 & A6 & A7 & A8).
  destruct (patchErr env) as [pe|]; run;
    (eexists _, _; split; [reflexivity|]; split; [reflexivity|]);
    cbn [passResult passErr passWorld obj world storage events cluster
         NewAggregate];
    (split; [reflexivity|]); (split; [reflexivity|]);
    (split; [exact A1|]); (split; [exact A2|]); (split; [exact A3|]);
    (split; [exact A4|]); (split; [exact A5|]); (split; [exact A6|]);
    (split; [exact A7|]); (split; [exact A8|]);
    (split; [reflexivity|]); (split; reflexivity).
Qed.

(** The pass of the witness below leaves the chart ready and in the
    cluster. *)
Lemma newChart_pass_ready (p : Pass) (o' : HelmChart) :
  Reconcile (envOk "1.2.0") sampleKey
    (mkWorld [newChart] (sampleStorage []) []) = Returned p ->
  passObj p = Some o' ->
  conditions.Get o' ReadyCondition
  = Some (mkCondition ConditionTrue SucceededReason "")
  /\ cluster (passWorld p) = [o'].
Proof.
  intros Hrun Hobj. vm_compute in Hrun. injection Hrun as <-.
  cbn [passObj] in Hobj. injection Hobj as <-.
  split; reflexivity.
Qed.

Lemma Reconcile_adds_finalizer_first_witness :
  exists p o',
    Reconcile (envOk "1.2.0") sampleKey
      (mkWorld [newChart] (sampleStorage []) []) = Returned p
    /\ passObj p = Some o'
    /\ passResult p = mkResult true 0
    /\ passErr p = None
    /\ Finalizers o' = [SourceFinalizer]
    /\ sameDesired newChart o'
    /\ GetArtifact o' = None
    /\ StatusURL (ObjStatus o') = emptyURL
    /\ ObservedGeneration (ObjStatus o') = 0
    /\ (forall t, t <> ReadyCondition ->
          conditions.Get o' t = conditions.Get newChart t)
    /\ ReadySummarizes o'
    /\ LastHandledReconcileAt (ObjStatus o') = ""
    /\ storage (passWorld p) = sampleStorage []
    /\ events (passWorld p) = []
    /\ conditions.Get o' ReadyCondition
       = Some (mkCondition ConditionTrue SucceededReason "")
    /\ cluster (passWorld p) = [o'].
Proof.
  destruct (Reconcile_adds_finalizer_first (envOk "1.2.0") sampleKey
              (mkWorld [newChart] (sampleStorage []) []) newChart
              eq_refl eq_refl eq_refl eq_refl)
    as (p & o' & Hrun & Hobj & H1 & H2 & H3 & H4 & H5 & H6 & H7 & H8 & H9
        & H10 & H11 & H12 & _).
  exists p, o'. split; [exact Hrun|]. split; [exact Hobj|].
  split; [exact H1|]. split; [exact H2|]. split; [exact H3|].
  split; [exact H4|]. split; [exact H5|]. split; [exact H6|].
  split; [exact H7|]. split; [exact H8|]. split; [exact H9|].
  split; [exact H10|]. split; [exact H11|]. split; [exact H12|].
  exact (newChart_pass_ready p o' Hrun Hobj).
Defined.

(** X10: a pass that reaches the deferred patch and ends without an
    error and without asking for an immediate requeue has recorded the
    generation of the object as observed and cleared the reconciling
    condition, and the stalled condition mirrors the ready condition:
    true with the reason and message of a ready condition that is false,
    absent when the ready condition is true. *)
Theorem Reconcile_settled (env : Env) (req : ObjectKey) (w : World)
    (o : HelmChart) :
  Get env w req = (Some o, None) ->
  Suspend (Spec o) = false ->
  newHelperErr env = None ->
  exists p o',
    Reconcile env req w = Returned p
    /\ passObj p = Some o'
    /\ (passErr p = None -> Requeue (passResult p) = false ->
        ObservedGeneration (ObjStatus o') = Generation o
        /\ conditions.Get o' ReconcilingCondition = None
        /\ StalledMirrorsReady o').
Proof.
  intros Hget Hs Hh. rewrite (Reconcile_fetched env req w o) by done.
  destruct (reconcileFetched_run env (mkState o w))
    as (r & e & s1 & s' & _ & Hsame1 & _ & ->).
  destruct (patchDeferred_bookkeeping env r e s1)
    as (s2 & -> & _ & _ & Hbook).
  eexists _, _. split; [reflexivity|]. split; [reflexivity|].
  cbn [passErr passResult]. intros Herr Hreq.
  assert (He : e = None).
  { destruct (patchErr env); [|done]. by destruct e. }
  subst e. rewrite Hreq in Hbook. cbn in Hbook.
  destruct Hbook as (Hobs & Hrec & Hstalled).
  split; [|done]. rewrite Hobs. apply Hsame1.
Qed.

Lemma Reconcile_settled_witness :
  exists p o',
    Reconcile (envOk "1.3.0") sampleKey readyWorld = Returned p
    /\ passObj p = Some o'
    /\ (passErr p = None -> Requeue (passResult p) = false ->
        ObservedGeneration (ObjStatus o') = 1
        /\ conditions.Get o' ReconcilingCondition = None
        /\ StalledMirrorsReady o').
Proof.
  exact (Reconcile_settled (envOk "1.3.0") sampleKey readyWorld readyChart
           eq_refl eq_refl eq_refl).
Defined.

(** X11: when the body of a pass returned an error or asked for an
    immediate requeue, the deferred function returns the result of the
    body and leaves the observed generation, the reconciling condition
    and the stalled condition as the body left them. *)
Theorem patchDeferred_unsettled (env : Env) (result : Result)
    (retErr : option error) (s : State) :
  isErr retErr = true \/ Requeue result = true ->
  exists s' err,
    patchDeferred env result retErr s = Returned ((result, err), s')
    /\ ObservedGeneration (ObjStatus (obj s'))
       = ObservedGeneration (ObjStatus (obj s))
    /\ conditions.Get (obj s') ReconcilingCondition
       = conditions.Get (obj s) ReconcilingCondition
    /\ conditions.Get (obj s') StalledCondition
       = conditions.Get (obj s) StalledCondition.
Proof.
  intros Hcase.
  destruct (patchDeferred_bookkeeping env result retErr s)
    as (s' & Hrun & _ & _ & Hbook).
  exists s'. eexists. split; [exact Hrun|].
  assert (Hb : negb (isErr retErr) && negb (Requeue result) = false).
  { destruct Hcase as [-> | ->]; [done|apply andb_false_r]. }
  by rewrite Hb in Hbook.
Qed.

Lemma patchDeferred_unsettled_witness :
  exists s' err,
    patchDeferred (envOk "1.2.0") (mkResult true 0) None
      (sampleState readyChart []) = Returned ((mkResult true 0, err), s')
    /\ ObservedGeneration (ObjStatus (obj s')) = 1
    /\ conditions.Get (obj s') ReconcilingCondition = None
    /\ conditions.Get (obj s') StalledCondition = None.
Proof.
  exact (patchDeferred_unsettled (envOk "1.2.0") (mkResult true 0) None
           (sampleState readyChart []) (or_intror eq_refl)).
Defined.

(** X12: a pass that reaches the deferred patch over an object that
    carries the reconcile request annotation records the value of the
    annotation as the last handled request, whatever the outcome of the
    pass. *)
Theorem Reconcile_records_request (env : Env) (req : ObjectKey) (w : World)
    (o : HelmChart) (v : string) :
  Get env w req = (Some o, None) ->
  Suspend (Spec o) = false ->
  newHelperErr env = None ->
  Annotations o !! ReconcileRequestAnnotation = Some v ->
  exists p o',
    Reconcile env req w = Returned p
    /\ passObj p = Some o'
    /\ LastHandledReconcileAt (ObjStatus o') = v.
Proof.
  intros Hget Hs Hh Hann. rewrite (Reconcile_fetched env req w o) by done.
  destruct (reconcileFetched_run env (mkState o w))
    as (r & e & s1 & s' & _ & Hsame1 & _ & ->).
  destruct (patchDeferred_bookkeeping env r e s1)
    as (s2 & -> & _ & Hlast & _).
  eexists _, _. split; [reflexivity|]. split; [reflexivity|].
  cbn [obj] in *. rewrite Hlast.
  destruct Hsame1 as (_&_&_&_&_&->&_). cbn [obj]. by rewrite Hann.
Qed.

Lemma Reconcile_records_request_witness :
  exists p o',
    Reconcile (envCopyFails "1.3.0") sampleKey
      (mkWorld [requestedChart]
         (sampleStorage [Path (sampleArtifact "1.2.0")]) []) = Returned p
    /\ passObj p = Some o'
    /\ LastHandledReconcileAt (ObjStatus o') = "2021-07-30T10:00:00Z".
Proof.
  exact (Reconcile_records_request (envCopyFails "1.3.0") sampleKey
           (mkWorld [requestedChart]
              (sampleStorage [Path (sampleArtifact "1.2.0")]) [])
           requestedChart "2021-07-30T10:00:00Z"
           eq_refl eq_refl eq_refl eq_refl).
Defined.

(** X13: a pass that reaches the deferred patch returns the result of
    its body unchanged; its error is that of the body when the patch
    succeeds, and when the patch fails the aggregate of the error of the
    body, if any, followed by that of the patch: a failing patch never
    hides the error of the body. *)
Theorem Reconcile_aggregates_patch_error (env : Env) (req : ObjectKey)
    (w : World) (o : HelmChart) :
  Get env w req = (Some o, None) ->
  Suspend (Spec o) = false ->
  newHelperErr env = None ->
  exists p r e s1,
    Reconcile env req w = Returned p
    /\ dispatch env (mkState o w) = Returned ((r, e), s1)
    /\ passResult p = r
    /\ passErr p = match patchErr env, e with
                   | None, _ => e
                   | Some pe, None => Some (Aggregate [pe])
                   | Some pe, Some be => Some (Aggregate [be; pe])
                   end.
Proof.
  intros Hget Hs Hh. rewrite (Reconcile_fetched env req w o) by done.
  destruct (reconcileFetched_run env (mkState o w))
    as (r & e & s1 & s' & Hbody & _ & Hpatch & ->).
  rewrite Hpatch. eexists _, r, e, s1. split; [reflexivity|].
  split; [exact Hbody|]. split; [reflexivity|]. cbn [passErr].
  by destruct (patchErr env), e.
Qed.

Lemma Reconcile_aggregates_patch_error_witness :
  exists p r e s1,
    Reconcile (envCopyFails "1.3.0") sampleKey readyWorld = Returned p
    /\ dispatch (envCopyFails "1.3.0") (mkState readyChart readyWorld)
       = Returned ((r, e), s1)
    /\ passResult p = r
    /\ passErr p = e.
Proof.
  exact (Reconcile_aggregates_patch_error (envCopyFails "1.3.0") sampleKey
           readyWorld readyChart eq_refl eq_refl eq_refl).
Defined.

(** ** Garbage collection and the working directory *)

Lemma garbageCollect_run (env : Env) (s : State) :
  exists err s' ops evs,
    garbageCollect env s = Returned (err, s')
    /\ calls (storage (world s')) = (calls (storage (world s)) ++ ops)%list
    /\ events (world s') = (events (world s) ++ evs)%list
    /\ ops
       = (if negb (IsZeroTime (DeletionTimestamp (obj s))) then
            [OpRemoveAll
               (ArtifactDir (Kind (obj s)) (Namespace (obj s)) (Name (obj s)))]
          else match GetArtifact (obj s) with
               | Some a => [OpRemoveAllButCurrent (Path a)]
               | None => []
               end)
    /\ length evs = length ops
    /\ (forall ev, ev ∈ evs ->
          EventReason ev = (if isErr err then "GarbageCollectionFailed"
                            else "GarbageCollectionSucceeded")
          /\ Severity ev = (if isErr err then EventSeverityError
                            else EventSeverityInfo))
    /\ GetArtifact (obj s')
       = (if negb (IsZeroTime (DeletionTimestamp (obj s))) && negb (isErr err)
          then None else GetArtifact (obj s))
    /\ (IsZeroTime (DeletionTimestamp (obj s)) = true -> obj s' = obj s).
Proof.
  unfold garbageCollect, RemoveAll, RemoveAllButCurrent. run.
  destruct (IsZeroTime (DeletionTimestamp (obj s))); cbn [negb]; run;
    [|destruct (removeAllErr env) as [e|]; run;
      eexists _, _, _, _; (split; [reflexivity|]);
      cbn [obj world storage calls events];
      (split; [reflexivity|]); (split; [reflexivity|]);
      (split; [reflexivity|]); (split; [reflexivity|]);
      (split; [|split; [reflexivity|intros H; discriminate H]]);
      intros ev Hev; apply list_elem_of_singleton in Hev as ->; done].
  destruct (GetArtifact (obj s)) as [a|] eqn:Hart; run.
  - destruct (removeAllButCurrentErr env) as [e|]; run;
      eexists _, _, _, _; (split; [reflexivity|]);
      cbn [obj world storage calls events];
      (split; [reflexivity|]); (split; [reflexivity|]);
      (split; [reflexivity|]); (split; [reflexivity|]);
      (split; [|split; [exact Hart|reflexivity]]);
      intros ev Hev; apply list_elem_of_singleton in Hev as ->; done.
  - exists None, s, [], []. rewrite !app_nil_r.
    repeat split; try done; by apply elem_of_nil in H.
Qed.
Lemma reconcileStorage_world (env : Env) (s : State) :
  exists e1 s1 r s',
    garbageCollect env s = Returned (e1, s1)
    /\ reconcileStorage env s = Returned ((r, None), s')
    /\ world s' = world s1
    /\ (forall t, t <> ArtifactUnavailableCondition ->
          conditions.Get (obj s') t = conditions.Get (obj s1) t).
Proof.
  destruct (returns_garbageCollect env s) as (e1 & s1 & Hgc).
  exists e1, s1. unfold reconcileStorage. run. rewrite Hgc. run.
  destruct (GetArtifact (obj s1)) as [a|] eqn:Hart.
  - destruct (negb (ArtifactExist (storage (world s1)) a)); run.
    + eexists _, _. split; [reflexivity|]. split; [reflexivity|].
      split; [reflexivity|]. intros t Ht. cbn [obj world].
      unfold conditions.MarkTrue. conds. reflexivity.
    + rewrite Hart. eexists _, _. split; [reflexivity|].
      split; [reflexivity|]. split; [reflexivity|]. intros t Ht.
      cbn [obj world].
      change (conditions.Get
                (conditions.Delete ArtifactUnavailableCondition (obj s1)) t
              = conditions.Get (obj s1) t). by conds.
  - run. rewrite Hart. eexists _, _. split; [reflexivity|].
    split; [reflexivity|]. split; [reflexivity|]. intros t Ht.
    unfold conditions.MarkTrue. cbn [obj]. by conds.
Qed.

(** X14: the garbage collector makes at most one call on the store and
    emits one event for it: the removal of everything in the directory
    of the object when the object is marked for deletion, whether it
    advertises an artifact or not, and otherwise the removal of all but
    the advertised artifact, if there is one. The event is an error
    event with the reason [GarbageCollectionFailed] when the call fails
    and an info event with the reason [GarbageCollectionSucceeded] when
    it succeeds, whatever was stored. The advertised artifact is cleared
    by a teardown that succeeded and by nothing else. *)
Theorem garbageCollect_one_call_one_event (env : Env) (s : State) :
  exists err s' ops evs,
    garbageCollect env s = Returned (err, s')
    /\ calls (storage (world s')) = (calls (storage (world s)) ++ ops)%list
    /\ events (world s') = (events (world s) ++ evs)%list
    /\ ops
       = (if negb (IsZeroTime (DeletionTimestamp (obj s))) then
            [OpRemoveAll
               (ArtifactDir (Kind (obj s)) (Namespace (obj s)) (Name (obj s)))]
          else match GetArtifact (obj s) with
               | Some a => [OpRemoveAllButCurrent (Path a)]
               | None => []
               end)
    /\ length evs = length ops
    /\ (forall ev, ev ∈ evs ->
          EventReason ev = (if isErr err then "GarbageCollectionFailed"
                            else "GarbageCollectionSucceeded")
          /\ Severity ev = (if isErr err then EventSeverityError
                            else EventSeverityInfo))
    /\ GetArtifact (obj s')
       = (if negb (IsZeroTime (DeletionTimestamp (obj s))) && negb (isErr err)
          then None else GetArtifact (obj s)).
Proof.
  destruct (garbageCollect_run env s)
    as (err & s' & ops & evs & H1 & H2 & H3 & H4 & H5 & H6 & H7 & _).
  by exists err, s', ops, evs.
Qed.

(** X15: on an object that is not under deletion and that passes the
    storage stage (it advertises no artifact that is in the store, or
    its interval is not zero), a failure to create the working directory
    ends the pass body with that error and the zero result: the
    fetch-failed condition is true with the reason of a failed storage
    operation, an error event is emitted, the reconciling condition
    stays set, and the store has seen no call but that of the garbage
    collector. *)
Theorem reconcile_workdir_failure (env : Env) (s : State) (e : error) :
  IsZeroTime (DeletionTimestamp (obj s)) = true ->
  mkdirTempErr env = Some e ->
  advertisedInStore s = false \/ GetRequeueAfter (obj s) <> 0 ->
  exists s',
    reconcile env s = Returned ((zeroResult, Some e), s')
    /\ conditions.Get (obj s') FetchFailedCondition
       = Some (mkCondition ConditionTrue StorageOperationFailedReason
                 ("Failed to create temporary working directory: " +:+ Error e))
    /\ conditions.Get (obj s') ReconcilingCondition
       = Some (mkCondition ConditionTrue "Reconciling" "")
    /\ mkEvent EventSeverityError StorageOperationFailedReason
         ("Failed to create temporary working directory: " +:+ Error e) []
       ∈ events (world s')
    /\ calls (storage (world s'))
       = (calls (storage (world s)) ++
          match GetArtifact (obj s) with
          | Some a => [OpRemoveAllButCurrent (Path a)]
          | None => []
          end)%list.
Proof.
  intros Hdel Htmp Hgo.
  set (s0 := mkState (conditions.MarkReconciling "Reconciling" "" (obj s))
               (world s)).
  destruct (reconcileStorage_spec env s0 Hdel) as (r & s1 & Hstage & Hcase).
  destruct (reconcileStorage_world env s0)
    as (e1 & sg & r2 & s2 & Hgc & Hstage2 & Hworld & Hframe).
  rewrite Hstage in Hstage2. injection Hstage2 as <- <-.
  destruct (garbageCollect_run env s0)
    as (e1' & sg' & ops & evs & Hgc' & Hcalls & _ & Hops & _ & _ & _ & Hobj).
  rewrite Hgc in Hgc'. injection Hgc' as <- <-.
  specialize (Hobj Hdel).
  assert (Hnz : IsZero r = false).
  { destruct (GetArtifact (obj s1)).
    - destruct Hcase as (Hadv & _ & _ & _ & ->).
      destruct Hgo as [Hgo|Hgo]; [change (advertisedInStore s0) with
        (advertisedInStore s) in Hadv; congruence|].
      unfold IsZero. cbn. by apply bool_decide_eq_false.
    - by destruct Hcase as (_ & _ & ->). }
  assert (Hrec : reconcile env s = reconcileAfterStorage env s1).
  { unfold reconcile. run. fold s0. rewrite Hstage. cbn [isErr orb].
    by rewrite Hnz. }
  rewrite Hrec. unfold reconcileAfterStorage. rewrite Htmp. run.
  eexists. split; [reflexivity|]. cbn [obj world storage events calls].
  unfold conditions.MarkTrue. split; [by conds|]. split.
  { conds. rewrite Hframe by done. rewrite Hobj. subst s0. cbn [obj].
    unfold conditions.MarkReconciling, conditions.MarkTrue. by conds. }
  split.
  { apply elem_of_app. right. by left. }
  assert (Hdel0 : IsZeroTime (DeletionTimestamp (obj s0)) = true)
    by exact Hdel.
  rewrite Hdel0 in Hops. rewrite Hworld, Hcalls, Hops. reflexivity.
Qed.

Lemma reconcile_workdir_failure_witness :
  exists s',
    reconcile envNoWorkDir
      (sampleState readyChart [Path (sampleArtifact "1.2.0")])
    = Returned ((zeroResult,
                 Some (errorString "mkdir /tmp: read-only file system")), s')
    /\ conditions.Get (obj s') FetchFailedCondition
       = Some (mkCondition ConditionTrue StorageOperationFailedReason
                 "Failed to create temporary working directory: mkdir /tmp: read-only file system")
    /\ conditions.Get (obj s') ReconcilingCondition
       = Some (mkCondition ConditionTrue "Reconciling" "")
    /\ mkEvent EventSeverityError StorageOperationFailedReason
         "Failed to create temporary working directory: mkdir /tmp: read-only file system"
         []
       ∈ events (world s')
    /\ calls (storage (world s'))
       = [OpRemoveAllButCurrent (Path (sampleArtifact "1.2.0"))].
Proof.
  pose proof (reconcile_workdir_failure envNoWorkDir
                (sampleState readyChart [Path (sampleArtifact "1.2.0")])
                (errorString "mkdir /tmp: read-only file system")) as H.
  specialize (H eq_refl).
  specialize (H eq_refl).
  assert (Hgo : advertisedInStore
                  (sampleState readyChart [Path (sampleArtifact "1.2.0")]) = false
                \/ GetRequeueAfter
                     (obj (sampleState readyChart [Path (sampleArtifact "1.2.0")])) <> 0)
    by (right; cbn; lia).
  specialize (H Hgo).
  destruct H as (s' & H1 & H2 & H3 & H4 & H5).
  exists s'. split; [exact H1|]. split; [exact H2|].
  split; [exact H3|]. split; [exact H4|exact H5].
Defined.

(** ** Chart names *)

Lemma MatchString_none (s : string) : MatchString ReNone s = false.
Proof. induction s as [|c s IH]; [done|exact IH]. Qed.

Lemma MatchString_alt (r1 r2 : regexp) (s : string) :
  MatchString (ReAlt r1 r2) s = MatchString r1 s || MatchString r2 s.
Proof. revert r1 r2. induction s as [|c s IH]; intros r1 r2; [done|apply IH]. Qed.

Lemma MatchString_cat_none (r : regexp) (s : string) :
  MatchString (ReCat ReNone r) s = false.
Proof. induction s as [|c s IH]; [done|exact IH]. Qed.

Lemma MatchString_cat_empty (r : regexp) (s : string) :
  MatchString (ReCat ReEmpty r) s = MatchString r s.
Proof.
  destruct s as [|c s]; [done|]. cbn.
  by rewrite MatchString_alt, MatchString_cat_none.
Qed.

Lemma MatchString_star_class (ranges : list (ascii * ascii)) (s : string) :
  MatchString (ReStar (ReClass ranges)) s = allChars (inClass ranges) s.
Proof.
  induction s as [|c s IH]; [done|]. cbn.
  destruct (inClass ranges c); cbn.
  - by rewrite MatchString_cat_empty.
  - apply MatchString_cat_none.
Qed.

Lemma allChars_app (P : ascii -> bool) (s1 s2 : string) :
  allChars P (s1 +:+ s2) = allChars P s1 && allChars P s2.
Proof.
  induction s1 as [|c s1 IH]; [done|]. simpl. rewrite IH. apply andb_assoc.
Qed.

Lemma validHelmChartName_allChars (s : string) :
  validHelmChartName s
  = if allChars isChartChar s then None
    else Some (errorString
            ("invalid chart name '" +:+ s +:+
             "', a valid name must be lower case letters and numbers and MAY be separated with dashes (-)")).
Proof.
  unfold validHelmChartName, chartFmt. rewrite MatchString_star_class.
  fold isChartChar. change (inClass _) with isChartChar.
  by destruct (allChars isChartChar s).
Qed.

Lemma isChartChar_spec (c : ascii) :
  isChartChar c = true
  <-> (nat_of_ascii c = 45
       \/ 97 <= nat_of_ascii c <= 122
       \/ 48 <= nat_of_ascii c <= 57)%nat.
Proof.
  unfold isChartChar, inClass, inRange. cbn.
  rewrite !orb_true_iff, !andb_true_iff, !Nat.leb_le.
  change (nat_of_ascii "-") with 45%nat. change (nat_of_ascii "a") with 97%nat.
  change (nat_of_ascii "z") with 122%nat. change (nat_of_ascii "0") with 48%nat.
  change (nat_of_ascii "9") with 57%nat.
  split; [intros [?|[?|[?|?]]]; [lia|lia|lia|done] | lia].
Qed.

Lemma validHelmChartName_None (s : string) :
  validHelmChartName s = None <-> allChars isChartChar s = true.
Proof.
  rewrite validHelmChartName_allChars.
  by destruct (allChars isChartChar s).
Qed.

Lemma allChars_Forall (P : ascii -> bool) (s : string) :
  allChars P s = true
  <-> Forall (fun c => P c = true) (String.list_ascii_of_string s).
Proof.
  induction s as [|c s IH]; cbn.
  - split; [constructor|done].
  - rewrite Forall_cons, andb_true_iff, IH. done.
Qed.

(** X16: [validHelmChartName] accepts a name exactly when each of its
    characters is a dash, a lower-case letter from a to z or a digit. *)
Theorem validHelmChartName_accepts (s : string) :
  validHelmChartName s = None
  <-> Forall (fun c => (nat_of_ascii c = 45
                        \/ 97 <= nat_of_ascii c <= 122
                        \/ 48 <= nat_of_ascii c <= 57)%nat)
        (String.list_ascii_of_string s).
Proof.
  rewrite validHelmChartName_None, allChars_Forall.
  apply Forall_proper; [|done]. intros c. apply isChartChar_spec.
Qed.

(** X17: a name that [validHelmChartName] does not accept holds a
    character outside the class, and the error returned quotes the name
    in full. *)
Theorem validHelmChartName_rejects (s : string) :
  validHelmChartName s <> None ->
  validHelmChartName s
  = Some (errorString
            ("invalid chart name '" +:+ s +:+
             "', a valid name must be lower case letters and numbers and MAY be separated with dashes (-)"))
  /\ exists c, c ∈ String.list_ascii_of_string s /\ isChartChar c = false.
Proof.
  rewrite validHelmChartName_allChars.
  destruct (allChars isChartChar s) eqn:Hall; [done|]. intros _.
  split; [done|]. clear -Hall.
  induction s as [|c s IH]; [discriminate Hall|].
  cbn [allChars] in Hall.
  destruct (isChartChar c) eqn:Hc.
  - destruct (IH Hall) as (c' & Hin & Hc'). exists c'. split; [|done].
    cbn. by right.
  - exists c. split; [cbn; by left|done].
Qed.

Lemma validHelmChartName_rejects_witness :
  validHelmChartName "My_Chart"
  = Some (errorString
            "invalid chart name 'My_Chart', a valid name must be lower case letters and numbers and MAY be separated with dashes (-)")
  /\ exists c, c ∈ String.list_ascii_of_string "My_Chart"
               /\ isChartChar c = false.
Proof.
  exact (validHelmChartName_rejects "My_Chart" ltac:(discriminate)).
Defined.

(** X18: a name put together from two parts is accepted exactly when
    both parts are. *)
Theorem validHelmChartName_app (s1 s2 : string) :
  validHelmChartName (s1 +:+ s2) = None
  <-> validHelmChartName s1 = None /\ validHelmChartName s2 = None.
Proof.
  rewrite !validHelmChartName_allChars, allChars_app.
  destruct (allChars isChartChar s1), (allChars isChartChar s2); cbn;
    intuition discriminate.
Qed.

(** X19: the empty name and every name made of dashes only are
    accepted: the pattern asks neither for a character nor for words
    between the dashes. *)
Theorem validHelmChartName_dashes (n : nat) :
  validHelmChartName (dashes n) = None.
Proof.
  rewrite validHelmChartName_allChars.
  assert (H : allChars isChartChar (dashes n) = true).
  { induction n as [|n IH]; [done|]. cbn. exact IH. }
  by rewrite H.
Qed.

(** ** Change propagation by kind and name *)

Lemma key_split (k1 k2 n1 n2 : string) :
  noSlash k1 = true -> noSlash k2 = true ->
  k1 +:+ "/" +:+ n1 = k2 +:+ "/" +:+ n2 ->
  k1 = k2 /\ n1 = n2.
Proof.
  revert k2. induction k1 as [|c k1 IH]; intros [|d k2] H1 H2 Heq; simpl in *.
  - injection Heq as Heq. by subst.
  - injection Heq as Hc _. subst d. by rewrite bool_decide_eq_true_2 in H2.
  - injection Heq as Hc _. subst c. by rewrite bool_decide_eq_true_2 in H1.
  - injection Heq as Hc Heq. subst d.
    apply andb_true_iff in H1 as [_ H1]. apply andb_true_iff in H2 as [_ H2].
    by destruct (IH k2 H1 H2 Heq) as [-> ->].
Qed.

Lemma handler_filter (kind name : string) (l : list HelmChart) :
  noSlash kind = true ->
  Forall (fun hc => noSlash (RefKind (SourceRef (Spec hc))) = true) l ->
  filter (fun hc => indexKey hc = kind +:+ "/" +:+ name) l
  = filter (fun hc => RefKind (SourceRef (Spec hc)) = kind
                      /\ RefName (SourceRef (Spec hc)) = name) l.
Proof.
  intros Hk Hall. induction Hall as [|hc l Hhc Hall IH]; [done|].
  rewrite !filter_cons, IH.
  destruct (decide (indexKey hc = kind +:+ "/" +:+ name)) as [Heq|Hne].
  - apply key_split in Heq as [? ?]; [|done|done].
    by rewrite decide_True.
  - rewrite decide_False; [done|]. intros [Hkind Hname]. apply Hne.
    unfold indexKey. by rewrite Hkind, Hname.
Qed.

(** X20: when the accessor lists without an error, the source has an
    artifact and no chart of the cluster refers to a kind with a slash
    in it, each handler returns the requests for exactly the charts
    whose source reference has the kind of the handler and the name of
    the source, one for each and in the order of the cluster. The
    namespace of the source plays no part: charts of every namespace
    that refer to the name are enqueued. *)
Theorem requests_by_kind_and_name (env : Env) (w : World) (src : Source) :
  listErr env = None ->
  is_Some (SourceArtifact src) ->
  Forall (fun hc => noSlash (RefKind (SourceRef (Spec hc))) = true) (cluster w) ->
  requestsForHelmRepositoryChange env w (HelmRepositoryObject src)
  = Returned (requestsByRef HelmRepositoryKind src w)
  /\ requestsForGitRepositoryChange env w (GitRepositoryObject src)
     = Returned (requestsByRef GitRepositoryKind src w)
  /\ requestsForBucketChange env w (BucketObject src)
     = Returned (requestsByRef BucketKind src w).
Proof.
  intros Hok [a Ha] Hall.
  unfold requestsForHelmRepositoryChange, requestsForGitRepositoryChange,
    requestsForBucketChange, requestsByRef.
  rewrite Ha, !List_ok by done. cbn [isErr]. rewrite !requestsFor_map.
  rewrite <- !handler_filter by done. done.
Qed.

Lemma requests_by_kind_and_name_witness :
  requestsForHelmRepositoryChange (envOk "1.2.0") sampleCluster
    (HelmRepositoryObject sampleSource)
  = Returned [mkRequest (mkKey "default" "app")]
  /\ requestsForGitRepositoryChange (envOk "1.2.0") sampleCluster
       (GitRepositoryObject sampleSource)
     = Returned [mkRequest (mkKey "default" "from-git")]
  /\ requestsForBucketChange (envOk "1.2.0") sampleCluster
       (BucketObject sampleSource)
     = Returned [].
Proof.
  apply (requests_by_kind_and_name (envOk "1.2.0") sampleCluster sampleSource).
  - reflexivity.
  - eexists. reflexivity.
  - repeat constructor.
Defined.
